(** * pypelayer: schema inference ([pypelayer/schema.py], [pypelayer/s3_util.py])

    A shallow embedding of the schema inference entry points
    [generate_schema_from_csv] and [generate_schema_from_json] with their
    helpers [_parse_datetime], [_get_schema_from_df] and
    [s3_util.list_non_empty_objects].

    The program is written against pandas 1.5.2 (pinned in [setup.py]).  The
    pandas calls it makes are modelled on Python objects:
    - a [DataFrame] is a row count and an ordered list of labelled columns,
      each with the name of its dtype and its cells;
    - [pd.read_csv] is not modelled: a CSV object is given by the header and
      the typed cells that [pd.read_csv(..., header=0)] returns for it;
    - [json.loads] is not modelled: a JSON object is given by its decoded
      value;
    - [pd.json_normalize], [pd.DataFrame], [pd.concat],
      [DataFrame.convert_dtypes], [Series.isna] and [pd.to_datetime] follow
      the pandas documentation; integers are taken to fit in 64 bits and the
      set of strings accepted under the format [%Y-%m-%d %H:%M:%S] is a
      parameter ([strptime_ok]).  *)

From Stdlib Require Import List String Ascii ZArith QArith_base Qreduction Bool Arith Lia.
From Stdlib Require Import DecimalString.
Import ListNotations.

Local Close Scope Q_scope.
Local Open Scope string_scope.
Local Open Scope list_scope.

Set Implicit Arguments.

(** ** Exceptions and results

    [FileNotFoundError], [ValueError] and [KeyError] are raised by
    [schema.py] itself, [NotImplementedError] by [pd.json_normalize];
    [OutsideModel] marks an input on which pandas is not modelled here. *)

Inductive exn : Type :=
| FileNotFoundError
| ValueError (message : string)
| KeyError (key : string)
| NotImplementedError
| OutsideModel.

Inductive outcome (A : Type) : Type :=
| OK (a : A)
| Raise (e : exn).

Arguments OK {A} a.
Arguments Raise {A} e.

Definition bind {A B : Type} (r : outcome A) (k : A -> outcome B) : outcome B :=
  match r with
  | OK a => k a
  | Raise e => Raise e
  end.

Notation "x <- r ;; k" := (bind r (fun x => k))
  (at level 61, r at next level, right associativity).

(** ** Python strings *)

Definition LF : string := String (ascii_of_nat 10) EmptyString.

(** [s.endswith(suffix)] *)
Definition endswith (s suffix : string) : bool :=
  (String.length suffix <=? String.length s)%nat
  && String.eqb
       (substring (String.length s - String.length suffix) (String.length suffix) s)
       suffix.

(** [s.startswith(prefix)] *)
Definition startswith (s prefix : string) : bool := String.prefix prefix s.

(** [sep.join(items)] *)
Definition join (sep : string) (items : list string) : string :=
  String.concat sep items.

(** ** Python dictionaries

    A [dict] keeps its keys in insertion order; assigning to a key that is
    already present replaces the value and keeps the key where it is. *)

Section PyDict.
Context {V : Type}.

Definition dict : Type := list (string * V).

Fixpoint dict_set (d : dict) (k : string) (v : V) : dict :=
  match d with
  | [] => [(k, v)]
  | (k', v') :: rest =>
      if String.eqb k' k then (k', v) :: rest
      else (k', v') :: dict_set rest k v
  end.

Fixpoint dict_get (d : dict) (k : string) : option V :=
  match d with
  | [] => None
  | (k', v') :: rest => if String.eqb k' k then Some v' else dict_get rest k
  end.

(** [d.update(items)] for an iterable of pairs *)
Definition dict_update (d : dict) (items : list (string * V)) : dict :=
  fold_left (fun acc kv => dict_set acc (fst kv) (snd kv)) items d.

Definition keys (d : dict) : list string := map fst d.
End PyDict.

Arguments dict V : clear implicits.

(** ** The object store ([s3_util.py]) *)

Section S3.
Variable A : Type.

(** An entry of a bucket: what the listing reports and what [get()] reads. *)
Record S3Entry : Type := { Key : string; Size : Z; Body : A }.

(** [s3_resource.Object(bucket_name=..., key=...)] *)
Record S3Object : Type := { bucket_name : string; key : string; body : A }.

Definition S3 : Type := string -> list S3Entry.

(** [s3_client.list_objects_v2(Bucket, Prefix, MaxKeys)]: at most [MaxKeys]
    entries whose key starts with [Prefix]; no [Contents] when none does. *)
Definition list_objects_v2 (s3 : S3) (Bucket Prefix : string) (MaxKeys : nat)
  : option (list S3Entry) :=
  match firstn MaxKeys (filter (fun o => startswith (Key o) Prefix) (s3 Bucket)) with
  | [] => None
  | contents => Some contents
  end.

Definition list_non_empty_objects (s3 : S3) (s3_bucket_name prefix suffix : string)
    (limit : nat) : list S3Object :=
  match list_objects_v2 s3 s3_bucket_name prefix limit with
  | None => []
  | Some contents =>
      map (fun obj => {| bucket_name := s3_bucket_name; key := Key obj; body := Body obj |})
          (filter (fun obj => endswith (Key obj) suffix && (0 <? Size obj)%Z) contents)
  end.
End S3.

(** ** Decoded JSON and the cells of a frame *)

Local Unset Elimination Schemes.

Inductive json : Type :=
| JNull
| JBool (b : bool)
| JInt (z : Z)
| JFloat (q : Q)
| JStr (s : string)
| JArr (items : list json)
| JObj (fields : list (string * json)).

Local Set Elimination Schemes.

(** A cell of a frame: a missing value ([NaN], [None], [pd.NA], [NaT]), a
    Python scalar, a Python list (a JSON array kept whole) or a parsed
    timestamp. *)
Inductive cell : Type :=
| NA
| PyBool (b : bool)
| PyInt (z : Z)
| PyFloat (q : Q)
| PyStr (s : string)
| PyList (items : list json)
| Timestamp (s : string).

Definition isna (c : cell) : bool :=
  match c with
  | NA => true
  | _ => false
  end.

Record Series : Type := { name : string; dtype : string; values : list cell }.

Record DataFrame : Type := { len : nat; columns : list Series }.

(** [df[column].isna().sum()] *)
Definition isna_sum (s : Series) : nat := List.length (filter isna (values s)).

(** ** The type table and [_get_schema_from_df] *)

Definition PANDAS_TO_SNOWFLAKE : dict string :=
  [ ("Int64", "NUMBER(38,0)");
    ("Float64", "NUMBER(38,8)");
    ("string", "VARCHAR");
    ("boolean", "BOOLEAN");
    ("object", "VARIANT");
    ("datetime64[ns]", "TIMESTAMP WITHOUT TIME ZONE") ].

(** The dtype name looked up for a column: ["object"] when the column is
    completely empty, [str(df.dtypes[idx])] otherwise. *)
Definition column_dtype (df : DataFrame) (column : Series) : string :=
  let is_empty := Nat.eqb (len df) (isna_sum column) in
  if is_empty then "object" else dtype column.

(** The loop of [_get_schema_from_df].  Column labels are unique in the frames
    pandas builds here, so [df[column]] and [df.dtypes[idx]] are the column
    the loop is at. *)
Fixpoint schema_loop (df : DataFrame) (cols : list Series) (result : dict string)
  : outcome (dict string) :=
  match cols with
  | [] => OK result
  | column :: rest =>
      match dict_get PANDAS_TO_SNOWFLAKE (column_dtype df column) with
      | Some token => schema_loop df rest (dict_set result (name column) token)
      | None => Raise (KeyError (column_dtype df column))
      end
  end.

Definition _get_schema_from_df (df : DataFrame) : outcome (dict string) :=
  schema_loop df (columns df) [].

(** ** [textwrap.dedent] *)

Definition is_blank (c : ascii) : bool :=
  Ascii.eqb c " "%char || Ascii.eqb c (ascii_of_nat 9).

Fixpoint split_lines (text : string) : list string :=
  match text with
  | EmptyString => [EmptyString]
  | String c rest =>
      if Ascii.eqb c (ascii_of_nat 10) then EmptyString :: split_lines rest
      else match split_lines rest with
           | line :: lines => String c line :: lines
           | [] => [String c EmptyString]
           end
  end.

Fixpoint leading_whitespace (line : string) : string :=
  match line with
  | EmptyString => EmptyString
  | String c rest => if is_blank c then String c (leading_whitespace rest) else EmptyString
  end.

(** A line of blanks and tabs only (the pattern of [_whitespace_only_re]). *)
Definition whitespace_only (line : string) : bool :=
  negb (String.eqb line EmptyString) && String.eqb (leading_whitespace line) line.

(** A line with a character that is neither blank nor tab (the pattern of
    [_leading_whitespace_re]). *)
Definition has_text (line : string) : bool :=
  negb (String.eqb (leading_whitespace line) line).

Fixpoint common_prefix (a b : string) : string :=
  match a, b with
  | String x a', String y b' =>
      if Ascii.eqb x y then String x (common_prefix a' b') else EmptyString
  | _, _ => EmptyString
  end.

Definition narrow_margin (margin : option string) (indent : string) : option string :=
  match margin with
  | None => Some indent
  | Some m =>
      if startswith indent m then Some m
      else if startswith m indent then Some indent
      else Some (common_prefix m indent)
  end.

Definition strip_margin (margin line : string) : string :=
  if startswith line margin
  then substring (String.length margin) (String.length line - String.length margin) line
  else line.

Definition dedent (text : string) : string :=
  let lines := map (fun l => if whitespace_only l then EmptyString else l) (split_lines text) in
  let indents := map leading_whitespace (filter has_text lines) in
  match fold_left narrow_margin indents None with
  | Some (String c m) => join LF (map (strip_margin (String c m)) lines)
  | _ => join LF lines
  end.

(** ** pandas: building frames *)

(** [lib.fast_unique_multiple_list]: the labels of several lists, each once,
    in the order they are first met. *)
Definition append_unique (uniques : list string) (x : string) : list string :=
  if existsb (String.eqb x) uniques then uniques else uniques ++ [x].

Definition fast_unique_multiple_list (lists : list (list string)) : list string :=
  fold_left (fun uniques l => fold_left append_unique l uniques) lists [].

Definition is_number (c : cell) : bool :=
  match c with
  | PyInt _ | PyFloat _ => true
  | _ => false
  end.

Definition is_int (c : cell) : bool :=
  match c with
  | PyInt _ => true
  | _ => false
  end.

Definition is_bool (c : cell) : bool :=
  match c with
  | PyBool _ => true
  | _ => false
  end.

Definition is_str (c : cell) : bool :=
  match c with
  | PyStr _ => true
  | _ => false
  end.

(** The numpy dtype that stores the cells of a column, as settled by the soft
    conversion [infer_objects] with which [convert_dtypes] starts: [int64]
    for integers, [bool] for booleans, [float64] for numbers with missing
    values (and for a column of missing values only), [object] for anything
    else and for a column without rows. *)
Definition numpy_dtype (cells : list cell) : string :=
  match cells with
  | [] => "object"
  | _ =>
      if forallb is_int cells then "int64"
      else if forallb is_bool cells then "bool"
      else if forallb (fun c => isna c || is_number c) cells then "float64"
      else "object"
  end.

Definition new_series (label : string) (cells : list cell) : Series :=
  {| name := label; dtype := numpy_dtype cells; values := cells |}.

(** [pd.DataFrame(records)] for a list of dicts: the columns are the keys of
    the records in the order they are first met; a record without a key has
    [NaN] there. *)
Definition DataFrame_of_records (records : list (dict cell)) : DataFrame :=
  {| len := List.length records;
     columns :=
       map (fun label =>
              new_series label
                (map (fun r => match dict_get r label with
                               | Some v => v
                               | None => NA
                               end) records))
           (fast_unique_multiple_list (map keys records)) |}.

(** The table [pd.read_csv(body, header=0)] returns. *)
Record CSV : Type := { header : list string; rows : list (list cell) }.

Definition read_csv (body : CSV) : DataFrame :=
  {| len := List.length (rows body);
     columns :=
       map (fun ih => new_series (snd ih) (map (fun row => nth (fst ih) row NA) (rows body)))
           (combine (seq 0 (List.length (header body))) (header body)) |}.

(** ** pandas: [json_normalize]

    [pd.json_normalize(data)] makes one row of an object and one row of each
    element of an array (no row of an empty array); any other value raises
    [NotImplementedError].  Field names are taken to be ordinary column names:
    non-empty and not starting with the separator. *)

(** The Python object stored for a JSON value that is not an object (objects
    are descended into and never stored). *)
Definition py_value (j : json) : cell :=
  match j with
  | JNull => NA
  | JBool b => PyBool b
  | JInt z => PyInt z
  | JFloat q => PyFloat q
  | JStr s => PyStr s
  | JArr items => PyList items
  | JObj _ => NA
  end.

Definition is_dict (j : json) : bool :=
  match j with
  | JObj _ => true
  | _ => false
  end.

(** Nested objects are flattened into the record ([_normalise_json]): the
    value of field [key] of an object at path [path] is at path [path.key]; a
    value that is not an object is stored whole at its path. *)
Fixpoint flatten (data : json) (path : string) (record : dict cell) : dict cell :=
  match data with
  | JObj fields =>
      (fix items (l : list (string * json)) (acc : dict cell) : dict cell :=
         match l with
         | [] => acc
         | (key, value) :: rest => items rest (flatten value (path ++ "." ++ key)%string acc)
         end) fields record
  | _ => dict_set record path (py_value data)
  end.

(** The flat record of one JSON object ([_normalise_json_ordered]): first
    the fields that are not objects, in their order, then the flattened
    fields that are. *)
Definition flat_record (data : list (string * json)) : dict cell :=
  let top_dict_ :=
    dict_update []
      (map (fun kv => (fst kv, py_value (snd kv)))
           (filter (fun kv => negb (is_dict (snd kv))) data)) in
  let nested_dict_ :=
    fold_left (fun acc kv => flatten (snd kv) (fst kv) acc)
              (filter (fun kv => is_dict (snd kv)) data) [] in
  dict_update top_dict_ nested_dict_.

(** The rows of an array root, one record each ([_simple_json_normalize]);
    rows that are not objects are outside this model. *)
Fixpoint flat_records (ds : list json) : outcome (list (dict cell)) :=
  match ds with
  | [] => OK []
  | JObj fields :: rest =>
      records <- flat_records rest ;;
      OK (flat_record fields :: records)
  | _ :: _ => Raise OutsideModel
  end.

Definition json_normalize (data : json) : outcome DataFrame :=
  match data with
  | JArr rows_ =>
      records <- flat_records rows_ ;;
      OK (DataFrame_of_records records)
  | JObj fields => OK (DataFrame_of_records [flat_record fields])
  | _ => Raise NotImplementedError
  end.

(** ** pandas: [concat] and [convert_dtypes] *)

Definition get_column (df : DataFrame) (label : string) : option Series :=
  find (fun s => String.eqb (name s) label) (columns df).

(** The cells a frame contributes to a column of the concatenation: its own
    column, or [NaN] in every row when it has none. *)
Definition reindexed (df : DataFrame) (label : string) : list cell :=
  match get_column df label with
  | Some s => values s
  | None => repeat NA (len df)
  end.

(** [pd.concat(objs)]: rows one frame after the other, columns the union of
    the frames' columns in the order they are first met. *)
Definition concat (objs : list DataFrame) : DataFrame :=
  {| len := list_sum (map len objs);
     columns :=
       map (fun label => new_series label (flat_map (fun df => reindexed df label) objs))
           (fast_unique_multiple_list (map (fun df => map name (columns df)) objs)) |}.

Definition is_integral (c : cell) : bool :=
  match c with
  | PyInt _ => true
  | PyFloat q => Pos.eqb (Qden (Qred q)) 1
  | _ => false
  end.

(** [lib.infer_dtype(values, skipna=True)] as far as [convert_dtypes] uses it. *)
Definition infer_dtype (cells : list cell) : string :=
  match filter (fun c => negb (isna c)) cells with
  | [] => "empty"
  | present =>
      if forallb is_str present then "string"
      else if forallb is_bool present then "boolean"
      else "mixed"
  end.

(** The nullable dtype [convert_dtypes] selects for a column. *)
Definition convert_dtype (s : Series) : string :=
  if String.eqb (dtype s) "int64" then "Int64"
  else if String.eqb (dtype s) "float64" then
    if forallb is_integral (filter (fun c => negb (isna c)) (values s))
    then "Int64" else "Float64"
  else if String.eqb (dtype s) "bool" then "boolean"
  else if String.eqb (infer_dtype (values s)) "string" then "string"
  else if String.eqb (infer_dtype (values s)) "boolean" then "boolean"
  else dtype s.

Definition convert_dtypes (df : DataFrame) : DataFrame :=
  {| len := len df;
     columns :=
       map (fun s => {| name := name s; dtype := convert_dtype s; values := values s |})
           (columns df) |}.

(** ** [schema.py]: the entry points *)

Definition is_array (data : json) : bool :=
  match data with
  | JArr _ => true
  | _ => false
  end.

Definition indent16 : string := "                ".

(** The string literal of the error message: the triple-quoted text and the
    adjacent ["\n"] are one literal, on which [join] is called. *)
Definition message_literal : string :=
  (indent16 ++ "Top level array has to be present in all files or none of them." ++ LF
   ++ indent16 ++ "Files without top level arrays:" ++ LF
   ++ indent16 ++ LF)%string.

Definition files_without_arrays {A : Type} (is_list : list bool) (s3_objects : list (S3Object A))
  : list string :=
  map (fun p => (bucket_name (snd p) ++ "/" ++ key (snd p))%string)
      (filter (fun p => negb (fst p)) (combine is_list s3_objects)).

Fixpoint all_ok {A : Type} (l : list (outcome A)) : outcome (list A) :=
  match l with
  | [] => OK []
  | r :: rest => a <- r ;; others <- all_ok rest ;; OK (a :: others)
  end.

Section Inference.
(** Whether [pd.to_datetime] accepts a string under the format
    [%Y-%m-%d %H:%M:%S]. *)
Variable strptime_ok : string -> bool.

Definition parses (c : cell) : bool :=
  match c with
  | NA => true
  | PyStr s => strptime_ok s
  | Timestamp _ => true
  | _ => false
  end.

Definition to_timestamp (c : cell) : cell :=
  match c with
  | PyStr s => Timestamp s
  | _ => c
  end.

(** [pd.to_datetime(arg, format=...)] with the default [errors="raise"]:
    [None] stands for the [ValueError] raised when a value does not parse. *)
Definition to_datetime (arg : list cell) : option (list cell) :=
  if forallb parses arg then Some (map to_timestamp arg) else None.

Definition _parse_datetime (df : DataFrame) : DataFrame :=
  {| len := len df;
     columns :=
       map (fun column =>
              if String.eqb (dtype column) "string" then
                match to_datetime (values column) with
                | Some parsed =>
                    {| name := name column; dtype := "datetime64[ns]"; values := parsed |}
                | None => column
                end
              else column)
           (columns df) |}.

Definition generate_schema_from_csv (s3 : S3 CSV) (s3_bucket_name prefix suffix : string)
    (limit : nat) (override : list (string * string)) : outcome (dict string) :=
  let s3_objects := list_non_empty_objects s3 s3_bucket_name prefix suffix limit in
  match s3_objects with
  | [] => Raise FileNotFoundError
  | _ =>
      let df := convert_dtypes (concat (map (fun obj => read_csv (body obj)) s3_objects)) in
      let df := _parse_datetime df in
      schema <- _get_schema_from_df df ;;
      OK (dict_update schema override)
  end.

Definition generate_schema_from_json (s3 : S3 json) (s3_bucket_name prefix suffix : string)
    (limit : nat) (override : list (string * string)) : outcome (dict string * bool) :=
  let s3_objects := list_non_empty_objects s3 s3_bucket_name prefix suffix limit in
  match s3_objects with
  | [] => Raise FileNotFoundError
  | _ =>
      let json_data := map (fun obj => body obj) s3_objects in
      let is_list := map is_array json_data in
      top_level_array <-
        (if forallb (fun b => b) is_list then OK true
         else if existsb (fun b => b) is_list then
           Raise (ValueError
                    (dedent (join message_literal (files_without_arrays is_list s3_objects))))
         else OK false) ;;
      frames <- all_ok (map json_normalize json_data) ;;
      let df := convert_dtypes (concat frames) in
      let df := _parse_datetime df in
      schema <- _get_schema_from_df df ;;
      OK (dict_update schema override, top_level_array)
  end.
End Inference.

(** ** More of Python's strings and paths *)

Definition DQ : string := String (ascii_of_nat 34) EmptyString.

(** [s.replace(old, new)] for a one-character [old]. *)
Fixpoint str_replace (old : ascii) (new : string) (s : string) : string :=
  match s with
  | EmptyString => EmptyString
  | String c rest =>
      if Ascii.eqb c old then (new ++ str_replace old new rest)%string
      else String c (str_replace old new rest)
  end.

(** [s.split(sep)] for a one-character [sep]. *)
Fixpoint str_split (sep : ascii) (s : string) : list string :=
  match s with
  | EmptyString => [EmptyString]
  | String c rest =>
      if Ascii.eqb c sep then EmptyString :: str_split sep rest
      else match str_split sep rest with
           | piece :: pieces => String c piece :: pieces
           | [] => [String c EmptyString]
           end
  end.

(** [sep in s] for a one-character [sep]. *)
Fixpoint contains (sep : ascii) (s : string) : bool :=
  match s with
  | EmptyString => false
  | String c rest => Ascii.eqb c sep || contains sep rest
  end.

(** [p[:p.rfind(sep) + 1]]: the part of [p] up to its last [sep], included. *)
Fixpoint upto_last (sep : ascii) (p : string) : string :=
  match p with
  | EmptyString => EmptyString
  | String c rest =>
      if contains sep rest then String c (upto_last sep rest)
      else if Ascii.eqb c sep then String c EmptyString
      else EmptyString
  end.

(** [s.rstrip(sep)] for a one-character [sep]. *)
Fixpoint rstrip (sep : ascii) (s : string) : string :=
  match s with
  | EmptyString => EmptyString
  | String c rest =>
      match rstrip sep rest with
      | EmptyString => if Ascii.eqb c sep then EmptyString else String c EmptyString
      | stripped => String c stripped
      end
  end.

(** [s == sep * len(s)] *)
Fixpoint only (sep : ascii) (s : string) : bool :=
  match s with
  | EmptyString => true
  | String c rest => Ascii.eqb c sep && only sep rest
  end.

(** [os.path.dirname] of [posixpath]. *)
Definition dirname (p : string) : string :=
  let head := upto_last "/" p in
  if negb (String.eqb head EmptyString) && negb (only "/" head) then rstrip "/" head
  else head.

(** [str(n)] for a natural number. *)
Definition str_of_nat (n : nat) : string := NilZero.string_of_uint (Nat.to_uint n).

(** [str(b)] for a boolean or [None]. *)
Definition str_of_flag (b : option bool) : string :=
  match b with
  | Some true => "True"
  | Some false => "False"
  | None => "None"
  end.

(** ** [s3_util.py]: [get_file_type_from_extension] *)

(** The inner loop: the first extension of the list with which the key ends,
    after a dot. *)
Fixpoint key_extension (key : string) (extensions : list string) : option string :=
  match extensions with
  | [] => None
  | ext :: rest =>
      if endswith key ("." ++ ext)%string then Some ext else key_extension key rest
  end.

(** The outer loop over the listed objects. *)
Fixpoint first_extension {A : Type} (objects : list (S3Entry A)) (extensions : list string)
  : option string :=
  match objects with
  | [] => None
  | obj :: rest =>
      match key_extension (Key obj) extensions with
      | Some ext => Some ext
      | None => first_extension rest extensions
      end
  end.

(** [s3_bucket.objects.filter(Prefix=prefix)] lists every object of the
    bucket whose key starts with the prefix. *)
Definition get_file_type_from_extension {A : Type} (s3 : S3 A)
    (s3_bucket_name prefix : string) (extensions : list string) : option string :=
  first_extension (filter (fun obj => startswith (Key obj) prefix) (s3 s3_bucket_name))
                  extensions.

(** ** [layer.py] *)

Module layer.

(** The attributes that [Layer.__init__] sets (the Snowflake credentials and
    connection are left out). *)
Record Layer : Type := {
  table_name : string;
  pipe_name : string;
  stage_name : string;
  s3_trigger_name : string;
  table_schema : dict string;
  file_pattern : string;
  file_format : string;
  columns_dml : string;
  s3_bucket_name : string;
  s3_prefix : string;
  storage_integration : string;
  replace : bool
}.

Definition Layer__init__ (table_name : string) (table_schema : dict string)
    (file_format file_pattern columns_dml s3_bucket_name s3_prefix storage_integration : string)
    (replace : bool) : Layer :=
  let table_name := str_replace "-" "_" table_name in
  {| table_name := table_name;
     pipe_name := (table_name ++ "_pipe")%string;
     stage_name := (table_name ++ "_stage")%string;
     s3_trigger_name := (table_name ++ "_snowpipe_trigger")%string;
     table_schema := table_schema;
     file_pattern := file_pattern;
     file_format := file_format;
     columns_dml := columns_dml;
     s3_bucket_name := s3_bucket_name;
     s3_prefix := s3_prefix;
     storage_integration := storage_integration;
     replace := replace |}.

Definition sanitize_column_name (column_name : string) : string :=
  str_replace "-" "_" (str_replace "." "_" column_name).

(** [enumerate(items, 1)] *)
Definition enumerate1 {A : Type} (items : list A) : list (nat * A) :=
  combine (seq 1 (List.length items)) items.

(** The terms that [LayerCSV.__init__] joins into [columns_dml]. *)
Definition csv_dml_terms (table_schema : dict string) : list string :=
  map (fun p => ("$" ++ str_of_nat (fst p) ++ " AS " ++ sanitize_column_name (snd p))%string)
      (enumerate1 (keys table_schema)).

Definition LayerCSV__init__ (table_name : string) (table_schema : dict string)
    (s3_bucket_name s3_prefix storage_integration : string) (replace : bool) : Layer :=
  let file_format :=
    dedent ("            FILE_FORMAT=(" ++ LF
            ++ "              TYPE='CSV'," ++ LF
            ++ "              FIELD_OPTIONALLY_ENCLOSED_BY='" ++ DQ ++ "'," ++ LF
            ++ "              SKIP_HEADER=1," ++ LF
            ++ "              NULL_IF=('')" ++ LF
            ++ "            )")%string in
  let file_pattern := "PATTERN='.*.csv'" in
  let columns_dml := join ("," ++ LF)%string (csv_dml_terms table_schema) in
  Layer__init__ table_name table_schema file_format file_pattern columns_dml
                s3_bucket_name s3_prefix storage_integration replace.

(** One term of the [columns_dml] of [LayerJSON.__init__]. *)
Definition json_dml_term (col_name : string) : string :=
  ("$1:" ++ DQ ++ str_replace "." (DQ ++ ":" ++ DQ) col_name ++ DQ
   ++ " AS " ++ sanitize_column_name col_name)%string.

Definition LayerJSON__init__ (table_name : string) (table_schema : dict string)
    (s3_bucket_name s3_prefix storage_integration : string) (replace : bool)
    (json_top_level_array : option bool) : Layer :=
  let file_format :=
    dedent ("            FILE_FORMAT=(" ++ LF
            ++ "              TYPE='JSON', " ++ LF
            ++ "              STRIP_OUTER_ARRAY=" ++ str_of_flag json_top_level_array ++ LF
            ++ "            )")%string in
  let file_pattern := "PATTERN='.*.json'" in
  let columns_dml := join ("," ++ LF)%string (map json_dml_term (keys table_schema)) in
  Layer__init__ table_name table_schema file_format file_pattern columns_dml
                s3_bucket_name s3_prefix storage_integration replace.

(** A queue configuration of a bucket's notification configuration. *)
Record QueueConfiguration : Type := {
  Id : string;
  FilterRules : list (string * string);
  Events : list string;
  QueueArn : string
}.

(** The response of [get_bucket_notification_configuration]: the response
    metadata, the queue configurations (absent when the bucket has none) and
    the configurations of the other kinds, which [attach_sns_arn] does not
    read. *)
Record NotificationConfiguration (M R : Type) : Type := {
  ResponseMetadata : option M;
  QueueConfigurations : option (list QueueConfiguration);
  OtherConfigurations : R
}.

(** [attach_sns_arn]: from the configuration read from the bucket and the ARN
    that [_get_pipe_sns_arn] returns, the configuration that is put back. *)
Definition attach_sns_arn {M R : Type} (self : Layer) (pipe_sns_arn : string)
    (notification_config : NotificationConfiguration M R)
  : outcome (NotificationConfiguration M R) :=
  let existing :=
    match QueueConfigurations notification_config with
    | Some configs => configs
    | None => []
    end in
  let kept :=
    filter (fun config => negb (String.eqb (Id config) (s3_trigger_name self))) existing in
  let queue_configurations :=
    kept ++ [ {| Id := s3_trigger_name self;
                 FilterRules := [("prefix", s3_prefix self)];
                 Events := ["s3:ObjectCreated:*"];
                 QueueArn := pipe_sns_arn |} ] in
  match ResponseMetadata notification_config with
  | None => Raise (KeyError "ResponseMetadata")
  | Some _ =>
      OK {| ResponseMetadata := None;
            QueueConfigurations := Some queue_configurations;
            OtherConfigurations := OtherConfigurations notification_config |}
  end.

End layer.

(** ** [cli.py]: the prefix and the table name in [datasource_new] *)

Module cli.

Definition EXPECTED_FILE_TYPES : list string := ["csv"; "json"].

(** [prefix = os.path.dirname(key) + "/"] *)
Definition prefix_of_key (key : string) : string := (dirname key ++ "/")%string.

(** [prefix.split("/")[-2]]; [None] stands for the [IndexError] of a list
    with fewer than two pieces. *)
Definition table_name_of_prefix (prefix : string) : option string :=
  nth_error (rev (str_split "/" prefix)) 1.

(** How the steps of [datasource_new] before the schema generation end. *)
Inductive started (A : Type) : Type :=
| Proceed (a : A)
| Abort
| IndexError.

Arguments Proceed {A} a.
Arguments Abort {A}.
Arguments IndexError {A}.

(** From the bucket and key of the S3 path and the table name option: the
    prefix and the table name that [datasource_new] goes on with. *)
Definition prefix_and_table_name (s3_bucket_name key : string) (table_name : option string)
  : started (string * string) :=
  let prefix := prefix_of_key key in
  if String.eqb s3_bucket_name EmptyString then Abort
  else
    match table_name with
    | Some given => Proceed (prefix, given)
    | None =>
        match table_name_of_prefix prefix with
        | None => IndexError
        | Some parsed =>
            if String.eqb parsed EmptyString then Abort else Proceed (prefix, parsed)
        end
    end.

End cli.

(** ** Vocabulary of the properties *)

(** The elements of a list, each once, in the order of their first
    appearance. *)
Fixpoint first_appearance (l : list string) : list string :=
  match l with
  | [] => []
  | x :: rest => x :: filter (fun y => negb (String.eqb x y)) (first_appearance rest)
  end.


(** The flat records parsed from a decoded JSON document (none when the
    document cannot be normalised). *)
Definition parsed_records (data : json) : list (dict cell) :=
  match data with
  | JArr elements =>
      match flat_records elements with
      | OK records => records
      | Raise _ => []
      end
  | JObj fields => [flat_record fields]
  | _ => []
  end.

(** The column paths met in the sampled files, in sampling order. *)
Definition csv_column_paths (s3_objects : list (S3Object CSV)) : list string :=
  flat_map (fun obj => header (body obj)) s3_objects.

Definition json_column_paths (s3_objects : list (S3Object json)) : list string :=
  flat_map (fun obj => flat_map keys (parsed_records (body obj))) s3_objects.

(** The cells observed for a column over the sampled frames: a frame without
    the column gives a missing value in each of its rows. *)
Definition observations (frames : list DataFrame) (label : string) : list cell :=
  flat_map (fun df => reindexed df label) frames.

Definition csv_observations (s3_objects : list (S3Object CSV)) (label : string) : list cell :=
  observations (map (fun obj => read_csv (body obj)) s3_objects) label.

(** The value a flat record has for a column: missing when it has none. *)
Definition record_value (label : string) (r : dict cell) : cell :=
  match dict_get r label with
  | Some v => v
  | None => NA
  end.

Definition json_observations (s3_objects : list (S3Object json)) (label : string) : list cell :=
  flat_map (fun obj => map (record_value label) (parsed_records (body obj))) s3_objects.

(** The identifier (container and key) of a sampled object. *)
Definition identifier {A : Type} (obj : S3Object A) : string :=
  (bucket_name obj ++ "/" ++ key obj)%string.

(** The six type tokens of the table. *)
Definition table_tokens : list string :=
  [ "NUMBER(38,0)"; "NUMBER(38,8)"; "VARCHAR"; "BOOLEAN"; "VARIANT";
    "TIMESTAMP WITHOUT TIME ZONE" ].

(** A strict reading of the format [%Y-%m-%d %H:%M:%S], used in the
    examples: [dddd-dd-dd dd:dd:dd]. *)
Definition is_digit (c : ascii) : bool :=
  (48 <=? nat_of_ascii c)%nat && (nat_of_ascii c <=? 57)%nat.

Fixpoint has_shape (pattern s : string) : bool :=
  match pattern, s with
  | EmptyString, EmptyString => true
  | String p pattern', String c s' =>
      (if Ascii.eqb p "d"%char then is_digit c else Ascii.eqb p c) && has_shape pattern' s'
  | _, _ => false
  end.

Definition strict_format (s : string) : bool := has_shape "dddd-dd-dd dd:dd:dd" s.

(** Membership of a label in a list of labels. *)
Definition mem (x : string) (l : list string) : bool := existsb (String.eqb x) l.

(** Every column of a frame has one cell per row. *)
Definition well_formed (df : DataFrame) : Prop :=
  Forall (fun s => List.length (values s) = len df) (columns df).

(** The inference that both entry points run on the frames of the sample. *)
Definition schema_of_frames (strptime_ok : string -> bool) (frames : list DataFrame)
  : outcome (dict string) :=
  _get_schema_from_df (_parse_datetime strptime_ok (convert_dtypes (concat frames))).

(** The dtype name under which a column with the given observations is
    looked up in the table. *)
Definition final_dtype (strptime_ok : string -> bool) (cells : list cell) : string :=
  if forallb isna cells then "object"
  else
    let d := convert_dtype (new_series EmptyString cells) in
    if String.eqb d "string" then
      if forallb (parses strptime_ok) cells then "datetime64[ns]" else "string"
    else d.

Definition token_of (strptime_ok : string -> bool) (cells : list cell) : string :=
  match dict_get PANDAS_TO_SNOWFLAKE (final_dtype strptime_ok cells) with
  | Some token => token
  | None => EmptyString
  end.

(** The schema inferred from the sample, before the overrides: each column
    path once, in the order of first appearance, with the token of its
    observations. *)
Definition csv_inferred_schema (strptime_ok : string -> bool)
    (s3_objects : list (S3Object CSV)) : dict string :=
  map (fun c => (c, token_of strptime_ok (csv_observations s3_objects c)))
      (first_appearance (csv_column_paths s3_objects)).

Definition json_inferred_schema (strptime_ok : string -> bool)
    (s3_objects : list (S3Object json)) : dict string :=
  map (fun c => (c, token_of strptime_ok (json_observations s3_objects c)))
      (first_appearance (json_column_paths s3_objects)).

(** A document [pd.json_normalize] accepts in this model: an object, or an
    array of objects. *)
Definition normalisable (data : json) : bool :=
  match data with
  | JObj _ => true
  | JArr elements => forallb is_dict elements
  | _ => false
  end.



(** ** Samples used in the examples *)

Definition entry {A : Type} (k : string) (content : A) : S3Entry A :=
  {| Key := k; Size := 10; Body := content |}.

Definition bucket_of {A : Type} (bucket : string) (entries : list (S3Entry A)) : S3 A :=
  fun b => if String.eqb b bucket then entries else [].

(** Two CSV files with one column [x]: integers in the first, words in the
    second. *)
Definition csv_numbers_then_words : S3 CSV :=
  bucket_of "bkt"
    [ entry "data/a.csv" {| header := ["x"]; rows := [[PyInt 1]; [PyInt 2]] |};
      entry "data/b.csv" {| header := ["x"]; rows := [[PyStr "a"]; [PyStr "b"]] |} ].

(** Two CSV files: column [y] is absent from the first and empty in the
    second; column [t] holds timestamps, column [w] a timestamp and a word. *)
Definition csv_sample : S3 CSV :=
  bucket_of "bkt"
    [ entry "data/a.csv"
        {| header := ["x"; "t"; "w"];
           rows := [[PyInt 1; PyStr "2020-01-01 00:00:00"; PyStr "2020-01-01 00:00:00"]] |};
      entry "data/b.csv"
        {| header := ["x"; "y"; "t"; "w"];
           rows := [[PyFloat (3 # 2); NA; PyStr "2021-12-31 23:59:59"; PyStr "soon"]] |} ].

(** The JSON document of the specification's scenario, with an array and a
    null added. *)
Definition json_document : json :=
  JObj [ ("a", JStr "x"); ("e", JObj [("f", JStr "y"); ("g", JArr [JInt 1; JInt 2])]);
         ("b", JInt 1); ("c", JFloat (3 # 2)); ("d", JStr "2020-01-01 00:00:00");
         ("n", JNull) ].

Definition json_sample : S3 json :=
  bucket_of "bkt"
    [ entry "data/a.json" json_document;
      entry "data/b.json" (JObj [("a", JStr "z"); ("d", JStr "tomorrow"); ("k", JBool true)]) ].



(** The scenarios of the specification: one JSON object, and one CSV file
    with a column of words. *)
Definition json_scenario : S3 json :=
  bucket_of "bkt"
    [ entry "data/one.json"
        (JObj [ ("a", JStr "x"); ("b", JInt 1); ("c", JFloat (3 # 2));
                ("d", JStr "2020-01-01 00:00:00"); ("e", JObj [("f", JStr "y")]) ]) ].

Definition csv_scenario : S3 CSV :=
  bucket_of "bkt"
    [ entry "data/one.csv" {| header := ["col"]; rows := [[PyStr "u"]; [PyStr "v"]] |} ].

(** A bucket whose first key under the prefix is not a CSV file. *)
Definition csv_behind_the_limit : S3 CSV :=
  bucket_of "bkt"
    [ entry "data/README.txt" {| header := []; rows := [] |};
      entry "data/a.csv" {| header := ["x"]; rows := [[PyInt 1]] |} ].

(** A bucket with a text file, a JSON file and a CSV file, in this order. *)
Definition mixed_extensions : S3 nat :=
  bucket_of "bkt" [ entry "d/a.txt" 1; entry "d/b.json" 2; entry "d/c.csv" 3 ].

(** The notification configuration of a bucket with a trigger of another
    layer and an older trigger of the layer [my-events]. *)
Definition bucket_notifications : layer.NotificationConfiguration nat nat :=
  {| layer.ResponseMetadata := Some 200;
     layer.QueueConfigurations :=
       Some [ {| layer.Id := "my_events_snowpipe_trigger";
                 layer.FilterRules := [("prefix", "old/")];
                 layer.Events := ["s3:ObjectCreated:*"];
                 layer.QueueArn := "arn:old" |};
              {| layer.Id := "other_trigger";
                 layer.FilterRules := [];
                 layer.Events := ["s3:ObjectRemoved:*"];
                 layer.QueueArn := "arn:other" |} ];
     layer.OtherConfigurations := 7 |}.

(** * Properties *)

(** ** Lists of labels *)

Lemma mem_In (x : string) (l : list string) : mem x l = true <-> In x l.
Proof.
  unfold mem. rewrite existsb_exists. split.
  - intros [y [Hin Heq]]. apply String.eqb_eq in Heq. now subst.
  - intros Hin. exists x. split; [assumption | apply String.eqb_refl].
Qed.

Lemma mem_false (x : string) (l : list string) : mem x l = false <-> ~ In x l.
Proof.
  rewrite <- mem_In. destruct (mem x l); split; intros H; congruence.
Qed.

Lemma mem_app (x : string) (l1 l2 : list string) :
  mem x (l1 ++ l2) = mem x l1 || mem x l2.
Proof. unfold mem. apply existsb_app. Qed.

Lemma filter_absorb {A : Type} (P Q : A -> bool) (l : list A) :
  (forall y, P y = true -> Q y = true) -> filter P (filter Q l) = filter P l.
Proof.
  intros H. induction l as [|a l IH]; simpl; [reflexivity|].
  destruct (Q a) eqn:EQ; simpl.
  - now rewrite IH.
  - destruct (P a) eqn:EP; [|assumption].
    apply H in EP. congruence.
Qed.

Lemma filter_compose {A : Type} (P Q : A -> bool) (l : list A) :
  filter P (filter Q l) = filter (fun y => Q y && P y) l.
Proof.
  induction l as [|a l IH]; simpl; [reflexivity|].
  destruct (Q a); simpl; [destruct (P a); now rewrite IH | assumption].
Qed.

Lemma filter_all {A : Type} (P : A -> bool) (l : list A) :
  (forall y, In y l -> P y = true) -> filter P l = l.
Proof.
  induction l as [|a l IH]; simpl; intros H; [reflexivity|].
  rewrite (H a) by now left. f_equal. apply IH. intros y Hy. apply H. now right.
Qed.

Lemma first_appearance_In (x : string) (l : list string) :
  In x (first_appearance l) <-> In x l.
Proof.
  induction l as [|a l IH]; simpl; [tauto|].
  rewrite filter_In, IH, negb_true_iff, String.eqb_neq.
  destruct (String.eqb_spec a x); subst; tauto.
Qed.

Lemma first_appearance_NoDup (l : list string) : NoDup (first_appearance l).
Proof.
  induction l as [|a l IH]; simpl; constructor.
  - rewrite filter_In, negb_true_iff, String.eqb_neq. tauto.
  - now apply NoDup_filter.
Qed.

Lemma first_appearance_fixed (l : list string) :
  NoDup l -> first_appearance l = l.
Proof.
  induction 1 as [|a l Hnot Hnd IH]; simpl; [reflexivity|].
  rewrite IH. f_equal. apply filter_all. intros y Hy.
  rewrite negb_true_iff, String.eqb_neq. congruence.
Qed.

Lemma fold_append_unique (l acc : list string) :
  fold_left append_unique l acc
  = acc ++ filter (fun y => negb (mem y acc)) (first_appearance l).
Proof.
  revert acc. induction l as [|x l IH]; intros acc; simpl.
  - now rewrite app_nil_r.
  - unfold append_unique at 2. fold (mem x acc).
    destruct (mem x acc) eqn:E; rewrite IH; simpl.
    + f_equal. symmetry. apply filter_absorb. intros y Hy.
      rewrite negb_true_iff in *. apply String.eqb_neq. intros ->. congruence.
    + rewrite <- app_assoc. simpl. f_equal. f_equal.
      rewrite filter_compose. apply filter_ext. intros y.
      rewrite mem_app. unfold mem at 2. simpl. rewrite orb_false_r.
      rewrite (String.eqb_sym y x). rewrite negb_orb. apply andb_comm.
Qed.

Lemma fold_append_unique_lists (lists : list (list string)) (acc : list string) :
  fold_left (fun uniques l => fold_left append_unique l uniques) lists acc
  = fold_left append_unique (List.concat lists) acc.
Proof.
  revert acc. induction lists as [|l lists IH]; intros acc; simpl; [reflexivity|].
  now rewrite IH, fold_left_app.
Qed.

Lemma fast_unique_multiple_list_spec (lists : list (list string)) :
  fast_unique_multiple_list lists = first_appearance (List.concat lists).
Proof.
  unfold fast_unique_multiple_list.
  rewrite fold_append_unique_lists, fold_append_unique. simpl.
  apply filter_all. reflexivity.
Qed.

Lemma first_appearance_app (l1 l2 : list string) :
  first_appearance (l1 ++ l2)
  = first_appearance l1 ++ filter (fun y => negb (mem y (first_appearance l1))) (first_appearance l2).
Proof.
  pose proof (fold_append_unique (l1 ++ l2) []) as H.
  rewrite fold_left_app, (fold_append_unique l1 []) in H. simpl in H.
  rewrite (filter_all _ (first_appearance l1)) in H by reflexivity.
  rewrite (filter_all _ (first_appearance (l1 ++ l2))) in H by reflexivity.
  rewrite <- H. apply fold_append_unique.
Qed.

(** ** Dictionaries *)

Section DictFacts.
Context {V : Type}.
Implicit Types (d : dict V) (k : string) (v : V).

Lemma keys_dict_set d k v : keys (dict_set d k v) = append_unique (keys d) k.
Proof.
  unfold append_unique. fold (mem k (keys d)).
  induction d as [|[k' v'] d IH]; simpl; [reflexivity|].
  unfold mem in *. simpl. rewrite (String.eqb_sym k k').
  destruct (String.eqb k' k); simpl; [reflexivity|].
  unfold keys in *. rewrite IH.
  destruct (existsb (String.eqb k) (map fst d)); reflexivity.
Qed.

Lemma keys_dict_update d (items : list (string * V)) :
  keys (dict_update d items) = fold_left append_unique (map fst items) (keys d).
Proof.
  unfold dict_update. revert d.
  induction items as [|[k v] items IH]; intros d; simpl; [reflexivity|].
  now rewrite IH, keys_dict_set.
Qed.

Lemma dict_get_set_same d k v : dict_get (dict_set d k v) k = Some v.
Proof.
  induction d as [|[k' v'] d IH]; simpl.
  - now rewrite String.eqb_refl.
  - destruct (String.eqb k' k) eqn:E; simpl; rewrite E; [reflexivity | assumption].
Qed.

Lemma dict_get_set_other d k k' v :
  k <> k' -> dict_get (dict_set d k v) k' = dict_get d k'.
Proof.
  intros Hne. induction d as [|[k0 v0] d IH]; simpl.
  - apply String.eqb_neq in Hne. now rewrite Hne.
  - destruct (String.eqb k0 k) eqn:E; simpl.
    + apply String.eqb_eq in E. subst k0.
      apply String.eqb_neq in Hne. now rewrite Hne.
    + now rewrite IH.
Qed.

Lemma dict_get_None d k : dict_get d k = None <-> ~ In k (keys d).
Proof.
  induction d as [|[k' v'] d IH]; simpl; [tauto|].
  destruct (String.eqb_spec k' k); subst.
  - split; [discriminate | tauto].
  - rewrite IH. tauto.
Qed.


Lemma dict_set_In d k v (x : string) (c : V) :
  In (x, c) (dict_set d k v) -> In (x, c) d \/ (x = k /\ c = v).
Proof.
  induction d as [|[k' v'] d IH]; simpl.
  - intros [[= <- <-]|[]]. now right.
  - destruct (String.eqb_spec k' k); subst; simpl.
    + intros [[= <- <-]|H]; [now right | left; now right].
    + intros [H|H]; [left; now left|]. destruct (IH H) as [H'|H']; [left; now right | now right].
Qed.

Lemma dict_set_absent d k v : ~ In k (keys d) -> dict_set d k v = d ++ [(k, v)].
Proof.
  induction d as [|[k' v'] d IH]; simpl; intros H; [reflexivity|].
  destruct (String.eqb_spec k' k); subst; [tauto|].
  rewrite IH; tauto.
Qed.

Lemma dict_get_update_notin d (items : list (string * V)) k :
  ~ In k (map fst items) -> dict_get (dict_update d items) k = dict_get d k.
Proof.
  unfold dict_update. revert d.
  induction items as [|[k' v'] items IH]; intros d H; simpl in *; [reflexivity|].
  rewrite IH by tauto. apply dict_get_set_other. tauto.
Qed.

Lemma dict_update_app d (l1 l2 : list (string * V)) :
  dict_update d (l1 ++ l2) = dict_update (dict_update d l1) l2.
Proof. unfold dict_update. apply fold_left_app. Qed.

Lemma dict_get_update_last d (l1 l2 : list (string * V)) k v :
  ~ In k (map fst l2) -> dict_get (dict_update d (l1 ++ (k, v) :: l2)) k = Some v.
Proof.
  intros H. rewrite dict_update_app.
  change ((k, v) :: l2) with ([(k, v)] ++ l2). rewrite dict_update_app.
  rewrite dict_get_update_notin by assumption.
  unfold dict_update. simpl. apply dict_get_set_same.
Qed.

Lemma append_unique_NoDup (l : list string) k : NoDup l -> NoDup (append_unique l k).
Proof.
  intros H. unfold append_unique. fold (mem k l).
  destruct (mem k l) eqn:E; [assumption|].
  apply mem_false in E. apply NoDup_app; [assumption | repeat constructor; intros [] | ].
  intros x Hx [<-|[]]. contradiction.
Qed.

Lemma dict_set_NoDup d k v : NoDup (keys d) -> NoDup (keys (dict_set d k v)).
Proof. rewrite keys_dict_set. apply append_unique_NoDup. Qed.

Lemma dict_update_NoDup d (items : list (string * V)) :
  NoDup (keys d) -> NoDup (keys (dict_update d items)).
Proof.
  unfold dict_update. revert d.
  induction items as [|[k v] items IH]; intros d H; simpl; [assumption|].
  apply IH. now apply dict_set_NoDup.
Qed.

(** Two dictionaries with the same keys in the same order and the same
    value at every key are equal. *)
Lemma dict_ext d1 d2 :
  NoDup (keys d1) -> keys d1 = keys d2 ->
  (forall k, dict_get d1 k = dict_get d2 k) -> d1 = d2.
Proof.
  revert d2. induction d1 as [|[k1 v1] d1 IH]; intros [|[k2 v2] d2] Hnd Hk Hg;
    simpl in *; try discriminate; [reflexivity|].
  injection Hk as -> Hk. inversion Hnd as [|? ? Hnot Hnd']; subst.
  pose proof (Hg k2) as H2. rewrite String.eqb_refl in H2. injection H2 as ->.
  f_equal. apply IH; [assumption | assumption |].
  intros k. specialize (Hg k).
  destruct (String.eqb_spec k2 k); [|assumption].
  subst k. assert (Hnot2 : ~ In k2 (keys d2)) by (unfold keys in *; now rewrite <- Hk).
  apply dict_get_None in Hnot. apply dict_get_None in Hnot2. congruence.
Qed.
End DictFacts.

(** ** Frames *)

Lemma filter_length_forallb {A : Type} (P : A -> bool) (l : list A) :
  Nat.eqb (List.length l) (List.length (filter P l)) = forallb P l.
Proof.
  assert (Hle : forall l', List.length (filter P l') <= List.length l').
  { intros l'. induction l' as [|a l' IH]; simpl; [lia|]. destruct (P a); simpl; lia. }
  induction l as [|a l IH]; [reflexivity|].
  cbn [forallb filter]. destruct (P a).
  - cbn. exact IH.
  - cbn [andb]. apply Nat.eqb_neq. cbn [List.length]. specialize (Hle l). lia.
Qed.

Lemma find_map_label (g : string -> Series) (labels : list string) (c : string) :
  (forall x, name (g x) = x) ->
  find (fun s => String.eqb (name s) c) (map g labels)
  = if mem c labels then Some (g c) else None.
Proof.
  intros Hg. unfold mem. induction labels as [|x labels IH]; simpl; [reflexivity|].
  rewrite Hg, (String.eqb_sym c x).
  destruct (String.eqb_spec x c); subst; simpl; [reflexivity | assumption].
Qed.

Lemma reindexed_length (df : DataFrame) (c : string) :
  well_formed df -> List.length (reindexed df c) = len df.
Proof.
  intros Hwf. unfold reindexed, get_column.
  destruct (find _ (columns df)) as [s|] eqn:E.
  - apply find_some in E. destruct E as [Hin _].
    unfold well_formed in Hwf. rewrite Forall_forall in Hwf. now apply Hwf.
  - apply repeat_length.
Qed.

Lemma observations_length (frames : list DataFrame) (c : string) :
  Forall well_formed frames ->
  List.length (observations frames c) = list_sum (map len frames).
Proof.
  unfold observations. induction 1 as [|df frames Hwf _ IH]; simpl; [reflexivity|].
  now rewrite length_app, IH, reindexed_length.
Qed.

Lemma read_csv_well_formed (body : CSV) : well_formed (read_csv body).
Proof.
  unfold well_formed, read_csv. simpl. apply Forall_forall.
  intros s Hs. apply in_map_iff in Hs. destruct Hs as [ih [<- _]].
  simpl. apply length_map.
Qed.

Lemma DataFrame_of_records_well_formed (records : list (dict cell)) :
  well_formed (DataFrame_of_records records).
Proof.
  unfold well_formed, DataFrame_of_records. simpl. apply Forall_forall.
  intros s Hs. apply in_map_iff in Hs. destruct Hs as [label [<- _]].
  simpl. apply length_map.
Qed.

Lemma concat_labels (frames : list DataFrame) :
  map name (columns (concat frames))
  = first_appearance (flat_map (fun df => map name (columns df)) frames).
Proof.
  unfold concat. simpl. rewrite map_map. simpl. rewrite map_id.
  rewrite fast_unique_multiple_list_spec. now rewrite <- flat_map_concat_map.
Qed.


(** ** The table *)

Lemma table_lookup_token (d token : string) :
  dict_get PANDAS_TO_SNOWFLAKE d = Some token -> In token table_tokens.
Proof.
  unfold PANDAS_TO_SNOWFLAKE, table_tokens. cbn [dict_get].
  repeat match goal with
         | |- context [String.eqb ?x d] =>
             destruct (String.eqb x d); [intros [= <-]; simpl; auto 10|]
         end.
  discriminate.
Qed.

Lemma convert_dtype_cases (label : string) (cells : list cell) :
  In (convert_dtype (new_series label cells))
     ["Int64"; "Float64"; "boolean"; "string"; "object"].
Proof.
  unfold convert_dtype, new_series, numpy_dtype. cbn [dtype values].
  destruct cells as [|c cells].
  - simpl. tauto.
  - destruct (forallb is_int (c :: cells)); [simpl; tauto|].
    destruct (forallb is_bool (c :: cells)); [simpl; tauto|].
    destruct (forallb (fun c0 => isna c0 || is_number c0) (c :: cells)).
    + cbn [String.eqb Ascii.eqb Bool.eqb].
      destruct (forallb is_integral _); simpl; tauto.
    + cbn [String.eqb Ascii.eqb Bool.eqb].
      destruct (String.eqb (infer_dtype (c :: cells)) "string"); [simpl; tauto|].
      destruct (String.eqb (infer_dtype (c :: cells)) "boolean"); simpl; tauto.
Qed.

Lemma convert_dtype_label (label label' : string) (cells : list cell) :
  convert_dtype (new_series label cells) = convert_dtype (new_series label' cells).
Proof. reflexivity. Qed.

Section Pipeline.
Variable strptime_ok : string -> bool.

Lemma final_dtype_in_table (cells : list cell) :
  dict_get PANDAS_TO_SNOWFLAKE (final_dtype strptime_ok cells)
  = Some (token_of strptime_ok cells).
Proof.
  unfold token_of, final_dtype.
  destruct (forallb isna cells); [reflexivity|].
  pose proof (convert_dtype_cases EmptyString cells) as H. cbv zeta.
  cbn [In] in H.
  destruct H as [<-|[<-|[<-|[<-|[<-|[]]]]]]; try reflexivity.
  cbn [String.eqb Ascii.eqb Bool.eqb].
  destruct (forallb (parses strptime_ok) cells); reflexivity.
Qed.

Lemma isna_to_timestamp (cells : list cell) :
  filter isna (map to_timestamp cells) = map to_timestamp (filter isna cells).
Proof.
  induction cells as [|c cells IH]; simpl; [reflexivity|].
  destruct c; simpl; now rewrite IH.
Qed.

(** The column that the pipeline makes of a label and its observations. *)
Lemma pipeline_column_dtype (df : DataFrame) (label : string) (cells : list cell) :
  len df = List.length cells ->
  let converted :=
    {| name := label; dtype := convert_dtype (new_series label cells); values := cells |} in
  let column :=
    if String.eqb (dtype converted) "string" then
      match to_datetime strptime_ok (values converted) with
      | Some parsed => {| name := label; dtype := "datetime64[ns]"; values := parsed |}
      | None => converted
      end
    else converted in
  name column = label /\ column_dtype df column = final_dtype strptime_ok cells.
Proof.
  intros Hlen. cbv zeta. cbn [dtype values].
  unfold final_dtype, column_dtype, to_datetime. cbv zeta.
  rewrite (convert_dtype_label label EmptyString).
  rewrite Hlen, <- (filter_length_forallb isna cells).
  destruct (String.eqb (convert_dtype (new_series EmptyString cells)) "string") eqn:Es.
  - destruct (forallb (parses strptime_ok) cells) eqn:Ep; cbn [name dtype values].
    + split; [reflexivity|]. unfold isna_sum. cbn [values].
      now rewrite isna_to_timestamp, length_map.
    + split; [reflexivity|]. unfold isna_sum. cbn [values].
      destruct (Nat.eqb _ _); [reflexivity|].
      now apply String.eqb_eq in Es.
  - cbn [name dtype values]. split; [reflexivity|]. unfold isna_sum. cbn [values].
    reflexivity.
Qed.

Lemma schema_loop_map (df : DataFrame) (g : string -> Series) (tok : string -> string)
    (cs : list string) (acc : dict string) :
  (forall c, In c cs ->
     name (g c) = c /\ dict_get PANDAS_TO_SNOWFLAKE (column_dtype df (g c)) = Some (tok c)) ->
  NoDup cs -> (forall c, In c cs -> ~ In c (keys acc)) ->
  schema_loop df (map g cs) acc = OK (acc ++ map (fun c => (c, tok c)) cs).
Proof.
  revert acc. induction cs as [|c cs IH]; intros acc Hg Hnd Hacc; cbn [map schema_loop].
  - now rewrite app_nil_r.
  - destruct (Hg c (or_introl eq_refl)) as [Hname Htok].
    rewrite Htok, Hname. inversion Hnd as [|? ? Hnot Hnd']; subst.
    rewrite dict_set_absent by (apply Hacc; now left).
    rewrite IH.
    + now rewrite <- app_assoc.
    + intros c' Hc'. apply Hg. now right.
    + assumption.
    + intros c' Hc'. unfold keys. rewrite map_app, in_app_iff. simpl.
      intros [H|[H|[]]]; [apply (Hacc c'); [now right | exact H] | congruence].
Qed.

Theorem schema_of_frames_spec (frames : list DataFrame) :
  Forall well_formed frames ->
  schema_of_frames strptime_ok frames
  = OK (map (fun c => (c, token_of strptime_ok (observations frames c)))
            (first_appearance (flat_map (fun df => map name (columns df)) frames))).
Proof.
  intros Hwf. unfold schema_of_frames, _get_schema_from_df.
  set (df := _parse_datetime strptime_ok (convert_dtypes (concat frames))).
  unfold df at 2.
  unfold _parse_datetime, convert_dtypes, concat. cbn [columns len].
  rewrite !map_map, fast_unique_multiple_list_spec, <- flat_map_concat_map.
  apply (schema_loop_map df _ (fun c => token_of strptime_ok (observations frames c))).
  - intros c _.
    pose proof (pipeline_column_dtype df c (observations frames c)) as H.
    rewrite observations_length in H by assumption.
    specialize (H eq_refl). cbv zeta in H. destruct H as [Hn Hd].
    split; [exact Hn|]. rewrite <- final_dtype_in_table. f_equal. exact Hd.
  - apply first_appearance_NoDup.
  - intros c _ [].
Qed.
End Pipeline.

(** ** The frames of the sample *)

Lemma map_snd_combine_seq {A : Type} (l : list A) (start : nat) :
  map snd (combine (seq start (List.length l)) l) = l.
Proof.
  revert start. induction l as [|a l IH]; intros start; simpl; [reflexivity|].
  now rewrite IH.
Qed.

Lemma read_csv_labels (body : CSV) : map name (columns (read_csv body)) = header body.
Proof.
  unfold read_csv. cbn [columns]. rewrite map_map. cbn [name new_series].
  apply map_snd_combine_seq.
Qed.

Lemma csv_frames_labels (s3_objects : list (S3Object CSV)) :
  flat_map (fun df => map name (columns df)) (map (fun obj => read_csv (body obj)) s3_objects)
  = csv_column_paths s3_objects.
Proof.
  unfold csv_column_paths. induction s3_objects as [|obj objs IH]; [reflexivity|].
  cbn [flat_map map]. now rewrite IH, read_csv_labels.
Qed.

Lemma DataFrame_of_records_labels (records : list (dict cell)) :
  map name (columns (DataFrame_of_records records))
  = first_appearance (flat_map keys records).
Proof.
  unfold DataFrame_of_records. cbn [columns]. rewrite map_map. cbn [name new_series].
  rewrite map_id, fast_unique_multiple_list_spec. now rewrite <- flat_map_concat_map.
Qed.

Lemma DataFrame_of_records_reindexed (records : list (dict cell)) (c : string) :
  reindexed (DataFrame_of_records records) c = map (record_value c) records.
Proof.
  unfold reindexed, get_column, DataFrame_of_records. cbn [columns len].
  rewrite find_map_label by reflexivity.
  destruct (mem c _) eqn:E; [reflexivity|].
  apply mem_false in E. rewrite fast_unique_multiple_list_spec, first_appearance_In in E.
  rewrite <- flat_map_concat_map in E.
  induction records as [|r records IH]; simpl in *; [reflexivity|].
  rewrite in_app_iff in E. f_equal.
  - unfold record_value.
    assert (H : dict_get r c = None) by (apply dict_get_None; tauto).
    now rewrite H.
  - apply IH. tauto.
Qed.

Lemma first_appearance_idem (l : list string) :
  first_appearance (first_appearance l) = first_appearance l.
Proof. apply first_appearance_fixed, first_appearance_NoDup. Qed.

Lemma first_appearance_flat_map {A : Type} (f : A -> list string) (l : list A) :
  first_appearance (flat_map (fun x => first_appearance (f x)) l)
  = first_appearance (flat_map f l).
Proof.
  induction l as [|x l IH]; simpl; [reflexivity|].
  now rewrite !first_appearance_app, first_appearance_idem, IH.
Qed.

Lemma json_normalize_frame (data : json) (df : DataFrame) :
  json_normalize data = OK df -> df = DataFrame_of_records (parsed_records data).
Proof.
  destruct data; simpl; try discriminate.
  - destruct (flat_records items); simpl; [intros [= <-]; reflexivity | discriminate].
  - intros [= <-]. reflexivity.
Qed.

Lemma flat_records_total (elements : list json) :
  forallb is_dict elements = true -> exists records, flat_records elements = OK records.
Proof.
  induction elements as [|j elements IH]; simpl; [now eexists|].
  destruct j; simpl; try discriminate.
  intros H. destruct (IH H) as [records ->]. simpl. now eexists.
Qed.

Lemma flat_records_raise (elements : list json) (e : exn) :
  flat_records elements = Raise e -> e = OutsideModel /\ forallb is_dict elements = false.
Proof.
  induction elements as [|j elements IH]; simpl; [discriminate|].
  destruct j; simpl; try (intros [= <-]; now split).
  destruct (flat_records elements); simpl; [discriminate|].
  intros [= <-]. now apply IH.
Qed.

Lemma json_normalize_total (data : json) :
  normalisable data = true <-> exists df, json_normalize data = OK df.
Proof.
  destruct data; simpl; try (split; [discriminate | intros [df [=]]]).
  - split.
    + intros H. destruct (flat_records_total _ H) as [records ->]. simpl. now eexists.
    + intros [df H]. destruct (flat_records items) eqn:E; simpl in H; [|discriminate].
      destruct (forallb is_dict items) eqn:F; [reflexivity|].
      clear H. revert a E. induction items as [|j items IH]; intros a E; [discriminate|].
      simpl in *. destruct j; simpl in *; try discriminate.
      destruct (flat_records items); simpl in *; [|discriminate]. eauto.
  - split; [now eexists | reflexivity].
Qed.

Lemma json_normalize_raise (data : json) (e : exn) :
  json_normalize data = Raise e -> e = NotImplementedError \/ e = OutsideModel.
Proof.
  destruct data; simpl; try (intros [= <-]; now left); try discriminate.
  destruct (flat_records items) eqn:E; simpl; [discriminate|].
  intros [= <-]. right. now apply flat_records_raise in E.
Qed.

Lemma all_ok_normalize (docs : list json) (frames : list DataFrame) :
  all_ok (map json_normalize docs) = OK frames ->
  frames = map (fun d => DataFrame_of_records (parsed_records d)) docs
  /\ forallb normalisable docs = true.
Proof.
  revert frames. induction docs as [|d docs IH]; intros frames; simpl.
  - intros [= <-]. now split.
  - destruct (json_normalize d) as [df|] eqn:E; simpl; [|discriminate].
    destruct (all_ok (map json_normalize docs)) as [fs|]; simpl; [|discriminate].
    intros [= <-]. destruct (IH fs eq_refl) as [-> Hn].
    rewrite (json_normalize_frame _ E). split; [reflexivity|].
    rewrite Hn, andb_true_r. apply json_normalize_total. eauto.
Qed.


Lemma all_ok_normalize_raise (docs : list json) (e : exn) :
  all_ok (map json_normalize docs) = Raise e ->
  (e = NotImplementedError \/ e = OutsideModel) /\ forallb normalisable docs = false.
Proof.
  induction docs as [|d docs IH]; simpl; [discriminate|].
  destruct (json_normalize d) as [df|e'] eqn:E; simpl.
  - destruct (all_ok (map json_normalize docs)) as [fs|e'']; simpl; [discriminate|].
    intros [= <-]. destruct (IH eq_refl) as [He Hn]. split; [assumption|].
    now rewrite Hn, andb_false_r.
  - intros [= <-]. split; [now apply json_normalize_raise in E|].
    destruct (normalisable d) eqn:N; [|reflexivity].
    apply json_normalize_total in N. destruct N as [df N]. congruence.
Qed.

Lemma json_frames_labels (s3_objects : list (S3Object json)) :
  first_appearance
    (flat_map (fun df => map name (columns df))
       (map (fun d => DataFrame_of_records (parsed_records d))
            (map (fun obj => body obj) s3_objects)))
  = first_appearance (json_column_paths s3_objects).
Proof.
  unfold json_column_paths. rewrite map_map.
  rewrite <- (first_appearance_flat_map
                (fun obj => flat_map keys (parsed_records (body obj))) s3_objects).
  f_equal. induction s3_objects as [|obj objs IH]; [reflexivity|].
  cbn [flat_map map]. now rewrite IH, DataFrame_of_records_labels.
Qed.

Lemma json_frames_observations (s3_objects : list (S3Object json)) (c : string) :
  observations (map (fun d => DataFrame_of_records (parsed_records d))
                    (map (fun obj => body obj) s3_objects)) c
  = json_observations s3_objects c.
Proof.
  unfold observations, json_observations.
  induction s3_objects as [|obj objs IH]; [reflexivity|].
  cbn [flat_map map]. now rewrite IH, DataFrame_of_records_reindexed.
Qed.

(** ** The entry points, in closed form *)

Lemma forallb_id_map {A : Type} (f : A -> bool) (l : list A) :
  forallb (fun b => b) (map f l) = forallb f l.
Proof. induction l as [|a l IH]; simpl; [reflexivity | now rewrite IH]. Qed.

Lemma existsb_id_map {A : Type} (f : A -> bool) (l : list A) :
  existsb (fun b => b) (map f l) = existsb f l.
Proof. induction l as [|a l IH]; simpl; [reflexivity | now rewrite IH]. Qed.

Lemma files_without_arrays_spec (s3_objects : list (S3Object json)) :
  files_without_arrays (map is_array (map (fun obj => body obj) s3_objects)) s3_objects
  = map identifier (filter (fun obj => negb (is_array (body obj))) s3_objects).
Proof.
  unfold files_without_arrays.
  induction s3_objects as [|obj objs IH]; [reflexivity|].
  cbn [map combine filter fst snd]. destruct (is_array (body obj)); cbn [negb map snd].
  - exact IH.
  - f_equal. exact IH.
Qed.

Section EntryPoints.
Variable strptime_ok : string -> bool.

Lemma generate_schema_from_csv_eq (s3 : S3 CSV) (s3_bucket_name prefix suffix : string)
    (limit : nat) (override : list (string * string)) :
  generate_schema_from_csv strptime_ok s3 s3_bucket_name prefix suffix limit override
  = match list_non_empty_objects s3 s3_bucket_name prefix suffix limit with
    | [] => Raise FileNotFoundError
    | obj :: objs =>
        OK (dict_update (csv_inferred_schema strptime_ok (obj :: objs)) override)
    end.
Proof.
  unfold generate_schema_from_csv.
  destruct (list_non_empty_objects s3 s3_bucket_name prefix suffix limit)
    as [|obj objs]; [reflexivity|].
  cbv zeta. fold (schema_of_frames strptime_ok
                    (map (fun obj0 => read_csv (body obj0)) (obj :: objs))).
  rewrite schema_of_frames_spec.
  - rewrite csv_frames_labels. reflexivity.
  - apply Forall_forall. intros df Hdf. apply in_map_iff in Hdf.
    destruct Hdf as [o [<- _]]. apply read_csv_well_formed.
Qed.

Lemma generate_schema_from_json_eq (s3 : S3 json) (s3_bucket_name prefix suffix : string)
    (limit : nat) (override : list (string * string)) :
  generate_schema_from_json strptime_ok s3 s3_bucket_name prefix suffix limit override
  = match list_non_empty_objects s3 s3_bucket_name prefix suffix limit with
    | [] => Raise FileNotFoundError
    | obj :: objs =>
        let s3_objects := obj :: objs in
        let json_data := map (fun o => body o) s3_objects in
        if forallb is_array json_data || negb (existsb is_array json_data) then
          match all_ok (map json_normalize json_data) with
          | OK _ =>
              OK (dict_update (json_inferred_schema strptime_ok s3_objects) override,
                  forallb is_array json_data)
          | Raise e => Raise e
          end
        else
          Raise (ValueError
                   (dedent (join message_literal
                              (map identifier
                                 (filter (fun o => negb (is_array (body o))) s3_objects)))))
    end.
Proof.
  unfold generate_schema_from_json.
  destruct (list_non_empty_objects s3 s3_bucket_name prefix suffix limit)
    as [|obj objs]; [reflexivity|].
  cbv zeta. set (s3_objects := obj :: objs).
  rewrite forallb_id_map, existsb_id_map, files_without_arrays_spec.
  assert (Hflag : forall b : bool,
    bind (OK b) (fun top_level_array =>
      bind (all_ok (map json_normalize (map (fun o => body o) s3_objects)))
        (fun frames =>
           bind (_get_schema_from_df
                   (_parse_datetime strptime_ok (convert_dtypes (concat frames))))
             (fun schema => OK (dict_update schema override, top_level_array))))
    = match all_ok (map json_normalize (map (fun o => body o) s3_objects)) with
      | OK _ => OK (dict_update (json_inferred_schema strptime_ok s3_objects) override, b)
      | Raise e => Raise e
      end).
  { intros b. cbn [bind].
    destruct (all_ok (map json_normalize (map (fun o => body o) s3_objects)))
      as [frames|e] eqn:E; [|reflexivity].
    cbn [bind]. apply all_ok_normalize in E. destruct E as [-> _].
    fold (schema_of_frames strptime_ok
            (map (fun d => DataFrame_of_records (parsed_records d))
                 (map (fun o => body o) s3_objects))).
    rewrite schema_of_frames_spec.
    - cbn [bind]. rewrite json_frames_labels. unfold json_inferred_schema.
      do 3 f_equal. apply map_ext. intros c. now rewrite json_frames_observations.
    - apply Forall_forall. intros df Hdf. apply in_map_iff in Hdf.
      destruct Hdf as [d [<- _]]. apply DataFrame_of_records_well_formed. }
  destruct (forallb is_array (map (fun o => body o) s3_objects)) eqn:Fa.
  - cbn [orb]. apply Hflag.
  - destruct (existsb is_array (map (fun o => body o) s3_objects)) eqn:Ex.
    + reflexivity.
    + cbn [orb negb]. apply Hflag.
Qed.
End EntryPoints.

(** ** [_get_schema_from_df] on any frame *)

Lemma schema_loop_tokens (df : DataFrame) (cols : list Series) (acc schema : dict string) :
  schema_loop df cols acc = OK schema ->
  (forall c t, In (c, t) acc -> In t table_tokens) ->
  forall c t, In (c, t) schema -> In t table_tokens.
Proof.
  revert acc. induction cols as [|column cols IH]; intros acc; cbn [schema_loop].
  - intros [= <-] H. exact H.
  - destruct (dict_get PANDAS_TO_SNOWFLAKE (column_dtype df column)) as [token|] eqn:E;
      [|discriminate].
    intros Hloop Hacc. apply (IH _ Hloop).
    intros c t Hin. apply dict_set_In in Hin. destruct Hin as [Hin|[_ ->]].
    + now apply (Hacc c).
    + now apply (table_lookup_token _ E).
Qed.

Lemma schema_loop_raise (df : DataFrame) (cols : list Series) (acc : dict string) (e : exn) :
  schema_loop df cols acc = Raise e ->
  exists d, e = KeyError d /\ dict_get PANDAS_TO_SNOWFLAKE d = None.
Proof.
  revert acc. induction cols as [|column cols IH]; intros acc; cbn [schema_loop];
    [discriminate|].
  destruct (dict_get PANDAS_TO_SNOWFLAKE (column_dtype df column)) as [token|] eqn:E.
  - apply IH.
  - intros [= <-]. eauto.
Qed.




(** ** Errors and tokens *)

(** C6: each entry point raises [FileNotFoundError] (the NoSampleData error)
    if and only if the sampler [list_non_empty_objects] returns the empty
    list for the prefix and suffix; the call then returns no schema, partial
    or empty. *)
Theorem C6_no_sample_data (strptime_ok : string -> bool)
    (s3_csv : S3 CSV) (s3_json : S3 json) (s3_bucket_name prefix suffix : string)
    (limit : nat) (override : list (string * string)) :
  (generate_schema_from_csv strptime_ok s3_csv s3_bucket_name prefix suffix limit override
   = Raise FileNotFoundError
   <-> list_non_empty_objects s3_csv s3_bucket_name prefix suffix limit = [])
  /\ (generate_schema_from_json strptime_ok s3_json s3_bucket_name prefix suffix limit override
      = Raise FileNotFoundError
      <-> list_non_empty_objects s3_json s3_bucket_name prefix suffix limit = []).
Proof.
  split.
  - rewrite generate_schema_from_csv_eq.
    destruct (list_non_empty_objects s3_csv _ _ _ _); split; intros H;
      try reflexivity; discriminate.
  - rewrite generate_schema_from_json_eq.
    destruct (list_non_empty_objects s3_json _ _ _ _) as [|obj objs]; split; intros H;
      try reflexivity; try discriminate.
    exfalso. cbv zeta in H.
    destruct (forallb is_array _ || negb (existsb is_array _)); [|discriminate].
    destruct (all_ok _) as [frames|e] eqn:E; [discriminate|].
    apply all_ok_normalize_raise in E. destruct E as [[->| ->] _]; discriminate.
Qed.

Lemma C6_witness :
  generate_schema_from_csv strict_format (bucket_of "bkt" []) "bkt" "data/" "csv" 10 []
  = Raise FileNotFoundError
  /\ generate_schema_from_json strict_format json_sample "bkt" "none/" "json" 10 []
     = Raise FileNotFoundError.
Proof.
  split.
  - apply (proj1 (C6_no_sample_data strict_format (bucket_of "bkt" []) json_sample
                    "bkt" "data/" "csv" 10 [])).
    reflexivity.
  - apply (proj2 (C6_no_sample_data strict_format csv_sample json_sample
                    "bkt" "none/" "json" 10 [])).
    reflexivity.
Defined.

(** C10: with no override, every type token of a returned schema is one of
    the six tokens of the table, for both entry points; this already holds of
    [_get_schema_from_df] on any frame. *)
Theorem C10_tokens_from_table (strptime_ok : string -> bool) :
  (forall (df : DataFrame) (schema : dict string),
      _get_schema_from_df df = OK schema ->
      forall c t, In (c, t) schema -> In t table_tokens)
  /\ (forall (s3 : S3 CSV) (s3_bucket_name prefix suffix : string) (limit : nat)
        (schema : dict string),
      generate_schema_from_csv strptime_ok s3 s3_bucket_name prefix suffix limit [] = OK schema ->
      forall c t, In (c, t) schema -> In t table_tokens)
  /\ (forall (s3 : S3 json) (s3_bucket_name prefix suffix : string) (limit : nat)
        (schema : dict string) (top_level_array : bool),
      generate_schema_from_json strptime_ok s3 s3_bucket_name prefix suffix limit []
      = OK (schema, top_level_array) ->
      forall c t, In (c, t) schema -> In t table_tokens).
Proof.
  assert (Hdf : forall df schema, _get_schema_from_df df = OK schema ->
                forall c t, In (c, t) schema -> In t table_tokens).
  { intros df schema H. apply (schema_loop_tokens _ _ _ H). intros c t []. }
  split; [exact Hdf|]. split.
  - intros s3 b p suf lim schema. unfold generate_schema_from_csv.
    destruct (list_non_empty_objects s3 b p suf lim); [discriminate|]. cbv zeta.
    destruct (_get_schema_from_df _) as [inferred|] eqn:E; cbn [bind]; [|discriminate].
    intros [= <-]. exact (Hdf _ _ E).
  - intros s3 b p suf lim schema flag. unfold generate_schema_from_json.
    destruct (list_non_empty_objects s3 b p suf lim); [discriminate|]. cbv zeta.
    match goal with
    | |- bind ?check _ = _ -> _ => destruct check as [tla|]; cbn [bind]; [|discriminate]
    end.
    destruct (all_ok _) as [frames|]; cbn [bind]; [|discriminate].
    destruct (_get_schema_from_df _) as [inferred|] eqn:E; cbn [bind]; [|discriminate].
    intros [= <- _]. exact (Hdf _ _ E).
Qed.

Lemma C10_witness :
  In "NUMBER(38,8)" table_tokens /\ In "BOOLEAN" table_tokens.
Proof.
  split.
  - apply (proj1 (proj2 (C10_tokens_from_table strict_format))
             csv_sample "bkt" "data/" "csv" 10
             [("x", "NUMBER(38,8)"); ("t", "TIMESTAMP WITHOUT TIME ZONE");
              ("w", "VARCHAR"); ("y", "VARIANT")] eq_refl "x").
    now left.
  - apply (proj2 (proj2 (C10_tokens_from_table strict_format))
             json_sample "bkt" "data/" "json" 10
             [("a", "VARCHAR"); ("b", "NUMBER(38,0)"); ("c", "NUMBER(38,8)");
              ("d", "VARCHAR"); ("n", "VARIANT"); ("e.f", "VARCHAR"); ("e.g", "VARIANT");
              ("k", "BOOLEAN")] false eq_refl "k").
    simpl. tauto.
Defined.



(** ** The token of a column, from its observations *)







Section Tokens.
Variable strptime_ok : string -> bool.

Lemma token_of_all_null (cells : list cell) :
  forallb isna cells = true -> token_of strptime_ok cells = "VARIANT".
Proof. intros H. unfold token_of, final_dtype. now rewrite H. Qed.






Lemma dict_get_map_label (f : string -> string) (l : list string) (c : string) :
  In c l -> dict_get (map (fun x => (x, f x)) l) c = Some (f c).
Proof.
  induction l as [|x l IH]; [intros []|]. cbn [map dict_get].
  destruct (String.eqb_spec x c); [now subst|].
  intros [H|H]; [congruence | now apply IH].
Qed.

Lemma csv_schema_get (s3_objects : list (S3Object CSV)) (override : list (string * string))
    (c : string) :
  In c (csv_column_paths s3_objects) -> ~ In c (map fst override) ->
  dict_get (dict_update (csv_inferred_schema strptime_ok s3_objects) override) c
  = Some (token_of strptime_ok (csv_observations s3_objects c)).
Proof.
  intros Hin Hov. rewrite dict_get_update_notin by assumption.
  unfold csv_inferred_schema.
  apply (dict_get_map_label (fun c => token_of strptime_ok (csv_observations s3_objects c))).
  now apply first_appearance_In.
Qed.

Lemma json_schema_get (s3_objects : list (S3Object json)) (override : list (string * string))
    (c : string) :
  In c (json_column_paths s3_objects) -> ~ In c (map fst override) ->
  dict_get (dict_update (json_inferred_schema strptime_ok s3_objects) override) c
  = Some (token_of strptime_ok (json_observations s3_objects c)).
Proof.
  intros Hin Hov. rewrite dict_get_update_notin by assumption.
  unfold json_inferred_schema.
  apply (dict_get_map_label (fun c => token_of strptime_ok (json_observations s3_objects c))).
  now apply first_appearance_In.
Qed.

(** A successful call, in terms of the inferred schema. *)
Lemma csv_call_inv (s3 : S3 CSV) (s3_bucket_name prefix suffix : string) (limit : nat)
    (override : list (string * string)) (schema : dict string) :
  generate_schema_from_csv strptime_ok s3 s3_bucket_name prefix suffix limit override
  = OK schema ->
  schema = dict_update
             (csv_inferred_schema strptime_ok
                (list_non_empty_objects s3 s3_bucket_name prefix suffix limit))
             override.
Proof.
  rewrite generate_schema_from_csv_eq.
  destruct (list_non_empty_objects s3 _ _ _ _); [discriminate|]. now intros [= <-].
Qed.

Lemma json_call_inv (s3 : S3 json) (s3_bucket_name prefix suffix : string) (limit : nat)
    (override : list (string * string)) (schema : dict string) (top_level_array : bool) :
  generate_schema_from_json strptime_ok s3 s3_bucket_name prefix suffix limit override
  = OK (schema, top_level_array) ->
  let s3_objects := list_non_empty_objects s3 s3_bucket_name prefix suffix limit in
  let json_data := map (fun o => body o) s3_objects in
  schema = dict_update (json_inferred_schema strptime_ok s3_objects) override
  /\ top_level_array = forallb is_array json_data
  /\ existsb is_array json_data = top_level_array
  /\ forallb normalisable json_data = true
  /\ s3_objects <> [].
Proof.
  rewrite generate_schema_from_json_eq. cbv zeta.
  destruct (list_non_empty_objects s3 _ _ _ _) as [|obj objs]; [discriminate|].
  set (docs := map (fun o => body o) (obj :: objs)).
  destruct (forallb is_array docs) eqn:Fa; cbn [orb].
  - destruct (all_ok (map json_normalize docs)) as [frames|] eqn:E; [|discriminate].
    intros [= <- <-]. apply all_ok_normalize in E. destruct E as [_ Hn].
    repeat split; try assumption; try discriminate.
    subst docs. cbn [map forallb existsb] in *.
    destruct (is_array (body obj)); [reflexivity | discriminate].
  - destruct (existsb is_array docs) eqn:Ex; cbn [negb]; [discriminate|].
    destruct (all_ok (map json_normalize docs)) as [frames|] eqn:E; [|discriminate].
    intros [= <- <-]. apply all_ok_normalize in E. destruct E as [_ Hn].
    repeat split; try assumption; try discriminate.
Qed.
End Tokens.

(** C2: a column that is present in the merged sample and whose observed
    values are all null (a record or file without the column counts as null)
    is inferred as Variant: absent an override for it, its token is VARIANT.
    This holds for both entry points. *)
Theorem C2_all_null_column_is_variant (strptime_ok : string -> bool) :
  (forall (s3 : S3 CSV) (s3_bucket_name prefix suffix : string) (limit : nat)
      (override : list (string * string)) (schema : dict string) (c : string),
      generate_schema_from_csv strptime_ok s3 s3_bucket_name prefix suffix limit override
      = OK schema ->
      In c (csv_column_paths (list_non_empty_objects s3 s3_bucket_name prefix suffix limit)) ->
      forallb isna
        (csv_observations (list_non_empty_objects s3 s3_bucket_name prefix suffix limit) c)
      = true ->
      ~ In c (map fst override) ->
      dict_get schema c = Some "VARIANT")
  /\ (forall (s3 : S3 json) (s3_bucket_name prefix suffix : string) (limit : nat)
        (override : list (string * string)) (schema : dict string) (top_level_array : bool)
        (c : string),
      generate_schema_from_json strptime_ok s3 s3_bucket_name prefix suffix limit override
      = OK (schema, top_level_array) ->
      In c (json_column_paths (list_non_empty_objects s3 s3_bucket_name prefix suffix limit)) ->
      forallb isna
        (json_observations (list_non_empty_objects s3 s3_bucket_name prefix suffix limit) c)
      = true ->
      ~ In c (map fst override) ->
      dict_get schema c = Some "VARIANT").
Proof.
  split.
  - intros s3 b p suf lim ov schema c Hcall Hin Hnull Hov.
    rewrite (csv_call_inv _ _ _ _ _ _ _ Hcall), csv_schema_get by assumption.
    now rewrite token_of_all_null.
  - intros s3 b p suf lim ov schema tla c Hcall Hin Hnull Hov.
    destruct (json_call_inv _ _ _ _ _ _ _ Hcall) as [-> _].
    rewrite json_schema_get by assumption.
    now rewrite token_of_all_null.
Qed.

Lemma C2_witness :
  dict_get [("x", "NUMBER(38,8)"); ("t", "TIMESTAMP WITHOUT TIME ZONE"); ("w", "VARCHAR");
            ("y", "VARIANT")] "y" = Some "VARIANT"
  /\ dict_get [("a", "VARCHAR"); ("b", "NUMBER(38,0)"); ("c", "NUMBER(38,8)");
               ("d", "VARCHAR"); ("n", "VARIANT"); ("e.f", "VARCHAR"); ("e.g", "VARIANT");
               ("k", "BOOLEAN")] "n" = Some "VARIANT".
Proof.
  split.
  - apply (proj1 (C2_all_null_column_is_variant strict_format)
             csv_sample "bkt" "data/" "csv" 10 []).
    + reflexivity.
    + vm_compute. tauto.
    + reflexivity.
    + simpl. tauto.
  - apply (proj2 (C2_all_null_column_is_variant strict_format)
             json_sample "bkt" "data/" "json" 10 [] _ false).
    + reflexivity.
    + vm_compute. tauto.
    + reflexivity.
    + simpl. tauto.
Defined.






(** ** Roots of the sampled documents *)








(** ** Overrides *)

Lemma fold_append_unique_In (l acc : list string) (x : string) :
  In x (fold_left append_unique l acc) <-> In x acc \/ In x l.
Proof.
  rewrite fold_append_unique, in_app_iff, filter_In, first_appearance_In.
  rewrite negb_true_iff, mem_false.
  destruct (in_dec string_dec x acc); tauto.
Qed.

Lemma filter_none {A : Type} (P : A -> bool) (l : list A) :
  (forall y, In y l -> P y = false) -> filter P l = [].
Proof.
  induction l as [|a l IH]; intros H; [reflexivity|]. cbn [filter].
  rewrite (H a) by now left. apply IH. intros y Hy. apply H. now right.
Qed.

Lemma fold_append_unique_absorbed (l acc : list string) :
  (forall x, In x l -> In x acc) -> fold_left append_unique l acc = acc.
Proof.
  intros H. rewrite fold_append_unique, filter_none; [apply app_nil_r|].
  intros y Hy. apply first_appearance_In, H, mem_In in Hy. now rewrite Hy.
Qed.

Lemma last_occurrence {V : Type} (items : list (string * V)) (k : string) :
  In k (map fst items) ->
  exists before v after, items = before ++ (k, v) :: after /\ ~ In k (map fst after).
Proof.
  induction items as [|[k' v'] items IH]; [intros []|]. cbn [map fst].
  destruct (in_dec string_dec k (map fst items)) as [Hin|Hnot].
  - intros _. destruct (IH Hin) as [before [v [after [-> Hafter]]]].
    exists ((k', v') :: before), v, after. now split.
  - intros [->|Hin]; [|contradiction].
    exists [], v', items. now split.
Qed.

(** Applying the same overrides a second time changes nothing. *)
Lemma dict_update_idempotent {V : Type} (d : dict V) (items : list (string * V)) :
  NoDup (keys d) -> dict_update (dict_update d items) items = dict_update d items.
Proof.
  intros Hnd. apply dict_ext.
  - now do 2 apply dict_update_NoDup.
  - rewrite (keys_dict_update (dict_update d items)). apply fold_append_unique_absorbed.
    intros x Hx. rewrite keys_dict_update. apply fold_append_unique_In. now right.
  - intros k. destruct (in_dec string_dec k (map fst items)) as [Hin|Hnot].
    + destruct (last_occurrence _ _ Hin) as [before [v [after [-> Hafter]]]].
      now rewrite !dict_get_update_last.
    + now rewrite !dict_get_update_notin.
Qed.

Lemma inferred_keys_csv (strptime_ok : string -> bool) (s3_objects : list (S3Object CSV)) :
  keys (csv_inferred_schema strptime_ok s3_objects)
  = first_appearance (csv_column_paths s3_objects).
Proof.
  unfold keys, csv_inferred_schema. rewrite map_map. cbn [fst]. apply map_id.
Qed.

Lemma inferred_keys_json (strptime_ok : string -> bool) (s3_objects : list (S3Object json)) :
  keys (json_inferred_schema strptime_ok s3_objects)
  = first_appearance (json_column_paths s3_objects).
Proof.
  unfold keys, json_inferred_schema. rewrite map_map. cbn [fst]. apply map_id.
Qed.

(** C7, as stated, fails for an override that a later override of the same
    column contradicts: the final schema maps the column to the later
    token. *)
Lemma C7_counterexample :
  exists schema,
    generate_schema_from_csv strict_format csv_numbers_then_words "bkt" "data/" "csv" 10
      [("x", "VARCHAR"); ("x", "NUMBER(38,0)")] = OK schema
    /\ In ("x", "VARCHAR") [("x", "VARCHAR"); ("x", "NUMBER(38,0)")]
    /\ dict_get schema "x" = Some "NUMBER(38,0)"
    /\ dict_get schema "x" <> Some "VARCHAR".
Proof.
  exists [("x", "NUMBER(38,0)")]. repeat split; try reflexivity.
  - now left.
  - discriminate.
Qed.

(** C7, amended: the overrides are applied to the inferred schema in the
    order given, without looking at the inferred type.  For every override
    (column, token) that no later override of the same column follows, the
    final schema maps the column to the token verbatim, whether or not the
    inferred schema has the column (if not, the column is added); a column
    that no override names keeps its inferred token; and supplying the
    overrides twice yields the same result as supplying them once. *)
Theorem C7_overrides (strptime_ok : string -> bool) :
  (forall (s3 : S3 CSV) (s3_bucket_name prefix suffix : string) (limit : nat)
      (override : list (string * string)),
      generate_schema_from_csv strptime_ok s3 s3_bucket_name prefix suffix limit override
      = (inferred <- generate_schema_from_csv strptime_ok s3 s3_bucket_name prefix suffix
                       limit [] ;;
         OK (dict_update inferred override)))
  /\ (forall (s3 : S3 json) (s3_bucket_name prefix suffix : string) (limit : nat)
        (override : list (string * string)),
      generate_schema_from_json strptime_ok s3 s3_bucket_name prefix suffix limit override
      = (inferred <- generate_schema_from_json strptime_ok s3 s3_bucket_name prefix suffix
                       limit [] ;;
         OK (dict_update (fst inferred) override, snd inferred)))
  /\ (forall (inferred : dict string) (before after : list (string * string))
        (c token : string),
      ~ In c (map fst after) ->
      dict_get (dict_update inferred (before ++ (c, token) :: after)) c = Some token)
  /\ (forall (inferred : dict string) (override : list (string * string)) (c : string),
      ~ In c (map fst override) ->
      dict_get (dict_update inferred override) c = dict_get inferred c)
  /\ (forall (s3 : S3 CSV) (s3_bucket_name prefix suffix : string) (limit : nat)
        (override : list (string * string)),
      generate_schema_from_csv strptime_ok s3 s3_bucket_name prefix suffix limit
        (override ++ override)
      = generate_schema_from_csv strptime_ok s3 s3_bucket_name prefix suffix limit override)
  /\ (forall (s3 : S3 json) (s3_bucket_name prefix suffix : string) (limit : nat)
        (override : list (string * string)),
      generate_schema_from_json strptime_ok s3 s3_bucket_name prefix suffix limit
        (override ++ override)
      = generate_schema_from_json strptime_ok s3 s3_bucket_name prefix suffix limit override).
Proof.
  split; [|split; [|split; [|split; [|split]]]].
  - intros s3 b p suf lim ov. rewrite !generate_schema_from_csv_eq.
    destruct (list_non_empty_objects s3 b p suf lim); reflexivity.
  - intros s3 b p suf lim ov. rewrite !generate_schema_from_json_eq.
    destruct (list_non_empty_objects s3 b p suf lim); [reflexivity|]. cbv zeta.
    destruct (forallb is_array _ || negb (existsb is_array _)); [|reflexivity].
    destruct (all_ok _); reflexivity.
  - intros inferred before after c token H. now apply dict_get_update_last.
  - intros inferred ov c H. now apply dict_get_update_notin.
  - intros s3 b p suf lim ov. rewrite !generate_schema_from_csv_eq.
    destruct (list_non_empty_objects s3 b p suf lim) as [|obj objs]; [reflexivity|].
    rewrite dict_update_app, dict_update_idempotent; [reflexivity|].
    rewrite inferred_keys_csv. apply first_appearance_NoDup.
  - intros s3 b p suf lim ov. rewrite !generate_schema_from_json_eq.
    destruct (list_non_empty_objects s3 b p suf lim) as [|obj objs]; [reflexivity|].
    cbv zeta.
    rewrite dict_update_app, dict_update_idempotent; [reflexivity|].
    rewrite inferred_keys_json. apply first_appearance_NoDup.
Qed.

Lemma C7_witness :
  dict_get (dict_update [("x", "VARIANT")]
              ([("x", "VARCHAR")] ++ ("x", "NUMBER(38,0)") :: [("z", "VARCHAR")])) "x"
  = Some "NUMBER(38,0)"
  /\ dict_get (dict_update [("x", "VARIANT")] [("z", "VARCHAR")]) "x" = Some "VARIANT".
Proof.
  split.
  - apply (proj1 (proj2 (proj2 (C7_overrides strict_format)))).
    simpl. intros [H|[]]. discriminate.
  - apply (proj1 (proj2 (proj2 (proj2 (C7_overrides strict_format))))
             [("x", "VARIANT")] [("z", "VARCHAR")] "x").
    simpl. intros [H|[]]. discriminate.
Defined.

(** C1, as stated, fails when an override names a column that is in no
    parsed record: the returned schema has that column too. *)
Lemma C1_counterexample :
  exists schema,
    generate_schema_from_csv strict_format csv_numbers_then_words "bkt" "data/" "csv" 10
      [("z", "VARCHAR")] = OK schema
    /\ In "z" (keys schema)
    /\ ~ In "z" (csv_column_paths
                   (list_non_empty_objects csv_numbers_then_words "bkt" "data/" "csv" 10)).
Proof.
  exists [("x", "VARIANT"); ("z", "VARCHAR")]. repeat split.
  - simpl. tauto.
  - vm_compute. intros [H|[H|[]]]; discriminate.
Qed.

(** C1, amended: for every successful call of either entry point the columns
    of the returned schema are the column paths present in the parsed records
    of the sampled files followed by the columns the overrides name, each
    column exactly once, in the order of first appearance (files in sampling
    order, then the overrides).  A column absent from some files is included.
    When every override names a column that is in some record, the columns
    are exactly the union of the column paths of the records, in the order
    of first appearance. *)
Theorem C1_columns (strptime_ok : string -> bool) :
  (forall (s3 : S3 CSV) (s3_bucket_name prefix suffix : string) (limit : nat)
      (override : list (string * string)) (schema : dict string),
      generate_schema_from_csv strptime_ok s3 s3_bucket_name prefix suffix limit override
      = OK schema ->
      forall paths,
      paths = csv_column_paths (list_non_empty_objects s3 s3_bucket_name prefix suffix limit) ->
      keys schema = first_appearance (paths ++ map fst override)
      /\ NoDup (keys schema)
      /\ (forall c, In c (keys schema) <-> In c paths \/ In c (map fst override))
      /\ ((forall c, In c (map fst override) -> In c paths) ->
          keys schema = first_appearance paths))
  /\ (forall (s3 : S3 json) (s3_bucket_name prefix suffix : string) (limit : nat)
        (override : list (string * string)) (schema : dict string) (top_level_array : bool),
      generate_schema_from_json strptime_ok s3 s3_bucket_name prefix suffix limit override
      = OK (schema, top_level_array) ->
      forall paths,
      paths = json_column_paths (list_non_empty_objects s3 s3_bucket_name prefix suffix limit) ->
      keys schema = first_appearance (paths ++ map fst override)
      /\ NoDup (keys schema)
      /\ (forall c, In c (keys schema) <-> In c paths \/ In c (map fst override))
      /\ ((forall c, In c (map fst override) -> In c paths) ->
          keys schema = first_appearance paths)).
Proof.
  assert (Hkeys : forall (inferred : dict string) (paths : list string)
                         (override : list (string * string)),
    keys inferred = first_appearance paths ->
    keys (dict_update inferred override) = first_appearance (paths ++ map fst override)
    /\ NoDup (keys (dict_update inferred override))
    /\ (forall c, In c (keys (dict_update inferred override))
                  <-> In c paths \/ In c (map fst override))
    /\ ((forall c, In c (map fst override) -> In c paths) ->
        keys (dict_update inferred override) = first_appearance paths)).
  { intros inferred paths ov Hk.
    assert (E : keys (dict_update inferred ov) = first_appearance (paths ++ map fst ov)).
    { rewrite keys_dict_update, Hk, fold_append_unique. symmetry.
      apply first_appearance_app. }
    split; [exact E|]. split; [rewrite E; apply first_appearance_NoDup|]. split.
    - intros c. now rewrite E, first_appearance_In, in_app_iff.
    - intros Hsub. rewrite keys_dict_update, Hk. apply fold_append_unique_absorbed.
      intros x Hx. apply first_appearance_In. now apply Hsub. }
  split.
  - intros s3 b p suf lim ov schema Hcall paths ->.
    rewrite (csv_call_inv _ _ _ _ _ _ _ Hcall). apply Hkeys, inferred_keys_csv.
  - intros s3 b p suf lim ov schema tla Hcall paths ->.
    destruct (json_call_inv _ _ _ _ _ _ _ Hcall) as [-> _].
    apply Hkeys, inferred_keys_json.
Qed.

Lemma C1_witness :
  keys [("x", "NUMBER(38,8)"); ("t", "TIMESTAMP WITHOUT TIME ZONE"); ("w", "VARCHAR");
        ("y", "VARIANT")]
  = first_appearance (["x"; "t"; "w"; "x"; "y"; "t"; "w"] ++ map fst (@nil (string * string)))
  /\ keys [("a", "VARCHAR"); ("b", "NUMBER(38,0)"); ("c", "NUMBER(38,8)");
           ("d", "VARCHAR"); ("n", "VARIANT"); ("e.f", "VARCHAR"); ("e.g", "VARIANT");
           ("k", "VARCHAR")]
     = first_appearance (["a"; "b"; "c"; "d"; "n"; "e.f"; "e.g"; "a"; "d"; "k"]).
Proof.
  split.
  - exact (proj1 (proj1 (C1_columns strict_format)
             csv_sample "bkt" "data/" "csv" 10 [] _ eq_refl _ eq_refl)).
  - refine (proj2 (proj2 (proj2 (proj2 (C1_columns strict_format)
             json_sample "bkt" "data/" "json" 10 [("k", "VARCHAR")] _ false eq_refl
             _ eq_refl))) _).
    vm_compute. intros c [<-|[]]. tauto.
Defined.

(** ** Flattening of JSON objects *)


Lemma string_app_assoc (a b c : string) : ((a ++ b) ++ c)%string = (a ++ b ++ c)%string.
Proof. induction a as [|x a IH]; simpl; [reflexivity | now rewrite IH]. Qed.























(** ** The scenarios of the specification *)

Example json_scenario_schema :
  generate_schema_from_json strict_format json_scenario "bkt" "data/" "json" 10 []
  = OK ([ ("a", "VARCHAR"); ("b", "NUMBER(38,0)"); ("c", "NUMBER(38,8)");
          ("d", "TIMESTAMP WITHOUT TIME ZONE"); ("e.f", "VARCHAR") ], false).
Proof. reflexivity. Qed.

Example csv_scenario_override :
  generate_schema_from_csv strict_format csv_scenario "bkt" "data/" "csv" 10 []
  = OK [("col", "VARCHAR")]
  /\ generate_schema_from_csv strict_format csv_scenario "bkt" "data/" "csv" 10
       [("col", "VARIANT")]
     = OK [("col", "VARIANT")].
Proof. split; reflexivity. Qed.

Example sampler_filters :
  map identifier
    (list_non_empty_objects
       (bucket_of "bkt"
          [ entry "data/a.csv" 1%nat; {| Key := "data/b.csv"; Size := 0; Body := 2%nat |};
            entry "data/c.txt" 3%nat; entry "other/d.csv" 4%nat; entry "data/e.csv" 5%nat ])
       "bkt" "data/" "csv" 10)
  = ["bkt/data/a.csv"; "bkt/data/e.csv"].
Proof. reflexivity. Qed.

(** * Further properties of the code *)

(** ** Strings *)

Lemma string_app_nil_r (s : string) : (s ++ "")%string = s.
Proof. induction s as [|c s IH]; simpl; [reflexivity | now rewrite IH]. Qed.

Lemma string_length_app (a b : string) :
  String.length (a ++ b) = String.length a + String.length b.
Proof. induction a as [|c a IH]; simpl; [reflexivity | now rewrite IH]. Qed.

Lemma substring_all (s : string) : substring 0 (String.length s) s = s.
Proof. induction s as [|c s IH]; simpl; [reflexivity | now rewrite IH]. Qed.

Lemma substring_skip (a b : string) (m : nat) :
  substring (String.length a) m (a ++ b) = substring 0 m b.
Proof. induction a as [|c a IH]; simpl; [reflexivity | exact IH]. Qed.

Lemma substring_split (s : string) (n m : nat) :
  n + m = String.length s -> s = (substring 0 n s ++ substring n m s)%string.
Proof.
  revert n. induction s as [|c s IH]; intros n H; simpl in H.
  - assert (n = 0) by lia. assert (m = 0) by lia. subst. reflexivity.
  - destruct n as [|n].
    + simpl in H. subst m. cbn [substring append]. now rewrite substring_all.
    + cbn [substring append]. f_equal. apply IH. simpl in H. lia.
Qed.

Lemma endswith_spec (s suffix : string) :
  endswith s suffix = true <-> exists before, s = (before ++ suffix)%string.
Proof.
  unfold endswith. rewrite andb_true_iff, Nat.leb_le, String.eqb_eq. split.
  - intros [Hle Hsub]. exists (substring 0 (String.length s - String.length suffix) s).
    pose proof (substring_split s (String.length s - String.length suffix)
                  (String.length suffix)) as H.
    rewrite Hsub in H. apply H. lia.
  - intros [before ->]. rewrite string_length_app. split; [lia|].
    replace (String.length before + String.length suffix - String.length suffix)
      with (String.length before) by lia.
    rewrite substring_skip. apply substring_all.
Qed.

Lemma startswith_spec (s before : string) :
  startswith s before = true <-> exists rest, s = (before ++ rest)%string.
Proof.
  unfold startswith. revert s. induction before as [|c before IH]; intros s.
  - destruct s; simpl; split; eauto.
  - destruct s as [|d s]; simpl.
    + split; [discriminate | intros [rest H]; discriminate].
    + destruct (ascii_dec c d) as [->|Hne].
      * rewrite IH. split; intros [rest H]; exists rest; [now rewrite H | now injection H].
      * split; [discriminate | intros [rest H]; injection H; congruence].
Qed.

(** ** The sampler *)

Lemma firstn_In {A : Type} (n : nat) (l : list A) (x : A) : In x (firstn n l) -> In x l.
Proof.
  revert l. induction n as [|n IH]; intros [|a l]; simpl; try tauto.
  intros [H|H]; [now left | right; now apply IH].
Qed.

Lemma list_non_empty_objects_eq {A : Type} (s3 : S3 A) (s3_bucket_name prefix suffix : string)
    (limit : nat) :
  list_non_empty_objects s3 s3_bucket_name prefix suffix limit
  = map (fun obj => {| bucket_name := s3_bucket_name; key := Key obj; body := Body obj |})
        (filter (fun obj => endswith (Key obj) suffix && (0 <? Size obj)%Z)
           (firstn limit (filter (fun o => startswith (Key o) prefix) (s3 s3_bucket_name)))).
Proof.
  unfold list_non_empty_objects, list_objects_v2.
  destruct (firstn limit _); reflexivity.
Qed.

(** X1: every object that [list_non_empty_objects] returns is an object of
    the bucket asked for, read with its content, whose key starts with
    the prefix and ends with the suffix and whose size is positive: an
    empty or non-matching object is never sampled. *)
Theorem X1_sampler_sound {A : Type} (s3 : S3 A) (s3_bucket_name prefix suffix : string)
    (limit : nat) (obj : S3Object A) :
  In obj (list_non_empty_objects s3 s3_bucket_name prefix suffix limit) ->
  bucket_name obj = s3_bucket_name
  /\ (exists listed, In listed (s3 s3_bucket_name)
                     /\ Key listed = key obj /\ Body listed = body obj
                     /\ (0 < Size listed)%Z)
  /\ (exists rest, key obj = (prefix ++ rest)%string)
  /\ (exists before, key obj = (before ++ suffix)%string).
Proof.
  rewrite list_non_empty_objects_eq, in_map_iff.
  intros [listed [<- Hin]]. apply filter_In in Hin. destruct Hin as [Hin Hok].
  apply firstn_In, filter_In in Hin. destruct Hin as [Hin Hpre].
  apply andb_true_iff in Hok. destruct Hok as [Hsuf Hsize].
  cbn [bucket_name key body]. split; [reflexivity|]. split; [|split].
  - exists listed. repeat split; try assumption. now apply Z.ltb_lt.
  - now apply startswith_spec.
  - now apply endswith_spec.
Qed.

Lemma X1_witness :
  bucket_name {| bucket_name := "bkt"; key := "data/b.csv";
                 body := {| header := ["x"]; rows := [[PyStr "a"]; [PyStr "b"]] |} |}
  = "bkt"
  /\ exists before, "data/b.csv" = (before ++ "csv")%string.
Proof.
  pose proof (X1_sampler_sound csv_numbers_then_words "bkt" "data/" "csv" 10
                {| bucket_name := "bkt"; key := "data/b.csv";
                   body := {| header := ["x"]; rows := [[PyStr "a"]; [PyStr "b"]] |} |})
    as H.
  destruct H as [Hb [_ [_ Hs]]]; [right; left; reflexivity|].
  split; [exact Hb | exact Hs].
Defined.

Lemma filter_length_le {A : Type} (P : A -> bool) (l : list A) :
  List.length (filter P l) <= List.length l.
Proof. induction l as [|a l IH]; simpl; [lia|]. destruct (P a); simpl; lia. Qed.

(** X2: [list_non_empty_objects] returns at most [limit] objects; with a
    limit of zero it returns none, so both entry points raise
    [FileNotFoundError] whatever the bucket holds. *)
Theorem X2_sampler_bound (strptime_ok : string -> bool) :
  (forall (A : Type) (s3 : S3 A) (s3_bucket_name prefix suffix : string) (limit : nat),
      List.length (list_non_empty_objects s3 s3_bucket_name prefix suffix limit) <= limit)
  /\ (forall (s3 : S3 CSV) (s3_bucket_name prefix suffix : string)
        (override : list (string * string)),
      generate_schema_from_csv strptime_ok s3 s3_bucket_name prefix suffix 0 override
      = Raise FileNotFoundError)
  /\ (forall (s3 : S3 json) (s3_bucket_name prefix suffix : string)
        (override : list (string * string)),
      generate_schema_from_json strptime_ok s3 s3_bucket_name prefix suffix 0 override
      = Raise FileNotFoundError).
Proof.
  split; [|split].
  - intros A s3 b p suf limit. rewrite list_non_empty_objects_eq, length_map.
    etransitivity; [apply filter_length_le|]. apply firstn_le_length.
  - intros. reflexivity.
  - intros. reflexivity.
Qed.

Lemma filter_nil_iff {A : Type} (P : A -> bool) (l : list A) :
  filter P l = [] <-> forall x, In x l -> P x = false.
Proof.
  split.
  - intros H x Hx. destruct (P x) eqn:E; [|reflexivity].
    assert (Hin : In x (filter P l)) by (apply filter_In; now split).
    rewrite H in Hin. destruct Hin.
  - apply filter_none.
Qed.

(** X3: the sampler looks at nothing but the first [limit] keys listed under
    the prefix.  Each entry point raises [FileNotFoundError] exactly when none
    of these keys is a non-empty object with the suffix, even when a key
    listed after them is one. *)
Theorem X3_sampler_window (strptime_ok : string -> bool)
    (s3_bucket_name prefix suffix : string) (limit : nat) (override : list (string * string)) :
  (forall s3 : S3 CSV,
      generate_schema_from_csv strptime_ok s3 s3_bucket_name prefix suffix limit override
      = Raise FileNotFoundError
      <-> forall listed,
            In listed (firstn limit
                         (filter (fun o => startswith (Key o) prefix) (s3 s3_bucket_name))) ->
            endswith (Key listed) suffix && (0 <? Size listed)%Z = false)
  /\ (forall s3 : S3 json,
        generate_schema_from_json strptime_ok s3 s3_bucket_name prefix suffix limit override
        = Raise FileNotFoundError
        <-> forall listed,
              In listed (firstn limit
                           (filter (fun o => startswith (Key o) prefix) (s3 s3_bucket_name))) ->
              endswith (Key listed) suffix && (0 <? Size listed)%Z = false).
Proof.
  split; intros s3; rewrite <- filter_nil_iff.
  - rewrite generate_schema_from_csv_eq.
    assert (Hnil : list_non_empty_objects s3 s3_bucket_name prefix suffix limit = []
                   <-> filter (fun o => endswith (Key o) suffix && (0 <? Size o)%Z)
                         (firstn limit
                            (filter (fun o => startswith (Key o) prefix) (s3 s3_bucket_name)))
                       = []).
    { rewrite list_non_empty_objects_eq. split; [apply map_eq_nil | now intros ->]. }
    destruct (list_non_empty_objects s3 s3_bucket_name prefix suffix limit) as [|obj objs].
    + split; [intros _; now apply Hnil | reflexivity].
    + split; [discriminate | intros H; apply Hnil in H; discriminate].
  - rewrite generate_schema_from_json_eq.
    assert (Hnil : list_non_empty_objects s3 s3_bucket_name prefix suffix limit = []
                   <-> filter (fun o => endswith (Key o) suffix && (0 <? Size o)%Z)
                         (firstn limit
                            (filter (fun o => startswith (Key o) prefix) (s3 s3_bucket_name)))
                       = []).
    { rewrite list_non_empty_objects_eq. split; [apply map_eq_nil | now intros ->]. }
    destruct (list_non_empty_objects s3 s3_bucket_name prefix suffix limit) as [|obj objs].
    + split; [intros _; now apply Hnil | reflexivity].
    + split; [|intros H; apply Hnil in H; discriminate].
      intros H. exfalso. cbv zeta in H.
      destruct (forallb is_array _ || negb (existsb is_array _)); [|discriminate].
      destruct (all_ok _) as [frames|e'] eqn:E; [discriminate|].
      apply all_ok_normalize_raise in E. destruct E as [[->| ->] _]; discriminate.
Qed.

Lemma X3_witness :
  generate_schema_from_csv strict_format csv_behind_the_limit "bkt" "data/" "csv" 1 []
  = Raise FileNotFoundError
  /\ generate_schema_from_csv strict_format csv_behind_the_limit "bkt" "data/" "csv" 2 []
     = OK [("x", "NUMBER(38,0)")].
Proof.
  split; [|reflexivity].
  apply (proj1 (X3_sampler_window strict_format "bkt" "data/" "csv" 1 [])
           csv_behind_the_limit).
  intros listed [<-|[]]. reflexivity.
Defined.

(** ** The file type from the extensions *)

Lemma key_extension_Some (key : string) (extensions : list string) (ext : string) :
  key_extension key extensions = Some ext ->
  In ext extensions /\ endswith key ("." ++ ext) = true.
Proof.
  induction extensions as [|e extensions IH]; cbn [key_extension]; [discriminate|].
  destruct (endswith key ("." ++ e)) eqn:E.
  - intros [= <-]. split; [now left | exact E].
  - intros H. destruct (IH H) as [Hin Hends]. split; [now right | exact Hends].
Qed.

Lemma key_extension_None (key : string) (extensions : list string) :
  key_extension key extensions = None
  <-> forall ext, In ext extensions -> endswith key ("." ++ ext) = false.
Proof.
  induction extensions as [|e extensions IH]; cbn [key_extension].
  - split; [intros _ ext [] | reflexivity].
  - destruct (endswith key ("." ++ e)) eqn:E.
    + split; [discriminate|]. intros H. rewrite (H e) in E by now left. discriminate.
    + rewrite IH. split.
      * intros H ext [<-|Hin]; [exact E | now apply H].
      * intros H ext Hin. apply H. now right.
Qed.

Lemma first_extension_Some {A : Type} (objects : list (S3Entry A)) (extensions : list string)
    (ext : string) :
  first_extension objects extensions = Some ext ->
  exists obj, In obj objects /\ key_extension (Key obj) extensions = Some ext.
Proof.
  induction objects as [|obj objects IH]; cbn [first_extension]; [discriminate|].
  destruct (key_extension (Key obj) extensions) as [e|] eqn:E.
  - intros [= <-]. exists obj. split; [now left | exact E].
  - intros H. destruct (IH H) as [o [Hin Ho]]. exists o. split; [now right | exact Ho].
Qed.

Lemma first_extension_None {A : Type} (objects : list (S3Entry A)) (extensions : list string) :
  first_extension objects extensions = None
  <-> forall obj, In obj objects -> key_extension (Key obj) extensions = None.
Proof.
  induction objects as [|obj objects IH]; cbn [first_extension].
  - split; [intros _ o [] | reflexivity].
  - destruct (key_extension (Key obj) extensions) as [e|] eqn:E.
    + split; [discriminate|]. intros H. rewrite (H obj) in E by now left. discriminate.
    + rewrite IH. split.
      * intros H o [<-|Hin]; [exact E | now apply H].
      * intros H o Hin. apply H. now right.
Qed.

(** X4: [get_file_type_from_extension] returns an extension only if it is
    one of the given extensions and some object of the bucket under the
    prefix has a key that ends with a dot and this extension; it returns
    [None] exactly when no object under the prefix has a key ending with a
    dot and one of the extensions. *)
Theorem X4_file_type_detection {A : Type} (s3 : S3 A) (s3_bucket_name prefix : string)
    (extensions : list string) :
  (forall ext,
      get_file_type_from_extension s3 s3_bucket_name prefix extensions = Some ext ->
      In ext extensions
      /\ exists listed before rest,
           In listed (s3 s3_bucket_name)
           /\ Key listed = (prefix ++ rest)%string
           /\ Key listed = (before ++ "." ++ ext)%string)
  /\ (get_file_type_from_extension s3 s3_bucket_name prefix extensions = None
      <-> forall listed ext,
            In listed (s3 s3_bucket_name) -> startswith (Key listed) prefix = true ->
            In ext extensions -> endswith (Key listed) ("." ++ ext) = false).
Proof.
  unfold get_file_type_from_extension. split.
  - intros ext H. apply first_extension_Some in H. destruct H as [obj [Hin Hext]].
    apply filter_In in Hin. destruct Hin as [Hin Hpre].
    apply key_extension_Some in Hext. destruct Hext as [Hext Hends].
    split; [exact Hext|].
    apply startswith_spec in Hpre. destruct Hpre as [rest Hrest].
    apply endswith_spec in Hends. destruct Hends as [before Hbefore].
    now exists obj, before, rest.
  - rewrite first_extension_None. split.
    + intros H listed ext Hin Hpre Hext.
      assert (Hf : In listed (filter (fun obj => startswith (Key obj) prefix)
                                (s3 s3_bucket_name)))
        by (apply filter_In; now split).
      apply H in Hf. now apply (proj1 (key_extension_None _ _) Hf).
    + intros H obj Hin. apply filter_In in Hin. destruct Hin as [Hin Hpre].
      apply key_extension_None. intros ext Hext. now apply (H obj ext).
Qed.

Lemma X4_witness :
  In "json" cli.EXPECTED_FILE_TYPES
  /\ exists listed before rest,
       In listed (mixed_extensions "bkt")
       /\ Key listed = ("d/" ++ rest)%string
       /\ Key listed = (before ++ "." ++ "json")%string.
Proof.
  apply (proj1 (X4_file_type_detection mixed_extensions "bkt" "d/" cli.EXPECTED_FILE_TYPES)).
  reflexivity.
Defined.

Lemma key_extension_first (key : string) (skipped others : list string) (ext : string) :
  (forall e, In e skipped -> endswith key ("." ++ e) = false) ->
  endswith key ("." ++ ext) = true ->
  key_extension key (skipped ++ ext :: others) = Some ext.
Proof.
  intros Hskipped Hext. induction skipped as [|e skipped IH]; cbn [app key_extension].
  - now rewrite Hext.
  - rewrite (Hskipped e) by now left. apply IH. intros e' He'. apply Hskipped. now right.
Qed.

(** X5: the first listed object decides the file type, not the order of the
    extensions: when an object under the prefix has an expected extension and
    no object listed before it has one, the result is the first of the given
    extensions that ends its key, whatever the objects listed after it. *)
Theorem X5_first_object_decides {A : Type} (s3 : S3 A) (s3_bucket_name prefix : string)
    (extensions : list string) (earlier later : list (S3Entry A)) (listed : S3Entry A)
    (skipped others : list string) (ext : string) :
  filter (fun obj => startswith (Key obj) prefix) (s3 s3_bucket_name)
  = earlier ++ listed :: later ->
  (forall obj e, In obj earlier -> In e extensions -> endswith (Key obj) ("." ++ e) = false) ->
  extensions = skipped ++ ext :: others ->
  (forall e, In e skipped -> endswith (Key listed) ("." ++ e) = false) ->
  endswith (Key listed) ("." ++ ext) = true ->
  get_file_type_from_extension s3 s3_bucket_name prefix extensions = Some ext.
Proof.
  intros Hlist Hearlier -> Hskipped Hext. unfold get_file_type_from_extension.
  rewrite Hlist. clear Hlist.
  induction earlier as [|obj earlier IH]; cbn [app first_extension].
  - now rewrite (key_extension_first _ _ _ _ Hskipped Hext).
  - assert (Hnone : key_extension (Key obj) (skipped ++ ext :: others) = None).
    { apply key_extension_None. intros e He. apply (Hearlier obj e); [now left | exact He]. }
    rewrite Hnone. apply IH. intros o e Ho He. apply Hearlier; [now right | exact He].
Qed.

Lemma X5_witness :
  get_file_type_from_extension mixed_extensions "bkt" "d/" cli.EXPECTED_FILE_TYPES
  = Some "json".
Proof.
  apply X5_first_object_decides
    with (earlier := [entry "d/a.txt" 1]) (later := [entry "d/c.csv" 3])
         (listed := entry "d/b.json" 2) (skipped := ["csv"]) (others := []).
  - reflexivity.
  - intros obj e [<-|[]] [<-|[<-|[]]]; reflexivity.
  - reflexivity.
  - intros e [<-|[]]. reflexivity.
  - reflexivity.
Defined.

(** ** Names in [layer.py] *)

Lemma contains_app (c : ascii) (a b : string) :
  contains c (a ++ b) = contains c a || contains c b.
Proof.
  induction a as [|x a IH]; simpl; [reflexivity|]. now rewrite IH, orb_assoc.
Qed.



Lemma str_replace_gone (old : ascii) (new s : string) :
  contains old new = false -> contains old (str_replace old new s) = false.
Proof.
  intros Hnew. induction s as [|x s IH]; simpl; [reflexivity|].
  destruct (Ascii.eqb x old) eqn:E; simpl.
  - now rewrite contains_app, Hnew, IH.
  - now rewrite E, IH.
Qed.

Lemma sanitize_cons (c : ascii) (s : string) :
  layer.sanitize_column_name (String c s)
  = String (if Ascii.eqb c "." || Ascii.eqb c "-" then "_"%char else c)
           (layer.sanitize_column_name s).
Proof.
  unfold layer.sanitize_column_name. cbn [str_replace].
  destruct (Ascii.eqb c ".") eqn:Edot; cbn [orb append str_replace].
  - reflexivity.
  - destruct (Ascii.eqb c "-"); reflexivity.
Qed.

(** X6: [sanitize_column_name] turns every dot and every hyphen into an
    underscore and leaves every other character where it is: the result has
    the same length and neither dot nor hyphen, sanitising twice is the same
    as once, and a name is unchanged exactly when it has neither dot nor
    hyphen. *)
Theorem X6_sanitize_column_name (column_name : string) :
  (forall n,
      String.get n (layer.sanitize_column_name column_name)
      = match String.get n column_name with
        | Some c => Some (if Ascii.eqb c "." || Ascii.eqb c "-" then "_"%char else c)
        | None => None
        end)
  /\ String.length (layer.sanitize_column_name column_name) = String.length column_name
  /\ contains "." (layer.sanitize_column_name column_name) = false
  /\ contains "-" (layer.sanitize_column_name column_name) = false
  /\ layer.sanitize_column_name (layer.sanitize_column_name column_name)
     = layer.sanitize_column_name column_name
  /\ (layer.sanitize_column_name column_name = column_name
      <-> contains "." column_name = false /\ contains "-" column_name = false).
Proof.
  induction column_name as [|c s IH].
  - repeat split; reflexivity.
  - destruct IH as [Hget [Hlen [Hdot [Hdash [Hidem Hfix]]]]].
    rewrite !sanitize_cons. cbn [String.length contains].
    assert (Hc : forall x, (x = "."%char \/ x = "-"%char)
                           \/ (Ascii.eqb x "." = false /\ Ascii.eqb x "-" = false)).
    { intros x. destruct (Ascii.eqb_spec x "."); [now left; left|].
      destruct (Ascii.eqb_spec x "-"); [now left; right | now right]. }
    split; [|split; [|split; [|split; [|split]]]].
    + intros [|n]; cbn [String.get]; [reflexivity | apply Hget].
    + now rewrite Hlen.
    + rewrite Hdot, orb_false_r.
      destruct (Hc c) as [[->| ->]|[E1 E2]]; try reflexivity.
      rewrite E1, E2. cbn [orb]. exact E1.
    + rewrite Hdash, orb_false_r.
      destruct (Hc c) as [[->| ->]|[E1 E2]]; try reflexivity.
      rewrite E1, E2. cbn [orb]. exact E2.
    + rewrite Hidem. f_equal.
      destruct (Hc c) as [[->| ->]|[E1 E2]]; try reflexivity.
      rewrite E1, E2. cbn [orb]. now rewrite E1, E2.
    + destruct (Hc c) as [[->| ->]|[E1 E2]].
      * split; [intros [= H _]; discriminate | intros [H _]; discriminate].
      * split; [intros [= H _]; discriminate | intros [_ H]; discriminate].
      * rewrite E1, E2. cbn [orb]. split.
        -- intros [= H]. now apply Hfix.
        -- intros H. f_equal. now apply Hfix.
Qed.

(** X7: [Layer.__init__] replaces every hyphen of the table name by an
    underscore and derives the other names from the result: the pipe, stage
    and trigger names are the table name followed by [_pipe], [_stage] and
    [_snowpipe_trigger], and none of the four names has a hyphen. *)
Theorem X7_layer_names (table_name : string) (table_schema : dict string)
    (file_format file_pattern columns_dml s3_bucket_name s3_prefix storage_integration : string)
    (replace : bool) :
  let self := layer.Layer__init__ table_name table_schema file_format file_pattern
                columns_dml s3_bucket_name s3_prefix storage_integration replace in
  layer.table_name self = str_replace "-" "_" table_name
  /\ layer.pipe_name self = (layer.table_name self ++ "_pipe")%string
  /\ layer.stage_name self = (layer.table_name self ++ "_stage")%string
  /\ layer.s3_trigger_name self = (layer.table_name self ++ "_snowpipe_trigger")%string
  /\ contains "-" (layer.table_name self) = false
  /\ contains "-" (layer.pipe_name self) = false
  /\ contains "-" (layer.stage_name self) = false
  /\ contains "-" (layer.s3_trigger_name self) = false
  /\ String.length (layer.table_name self) = String.length table_name.
Proof.
  cbv zeta. cbn [layer.Layer__init__ layer.table_name layer.pipe_name layer.stage_name
                 layer.s3_trigger_name].
  assert (H : contains "-" (str_replace "-" "_" table_name) = false)
    by (apply str_replace_gone; reflexivity).
  repeat split; try reflexivity; try exact H; try (now rewrite contains_app, H).
  clear H. induction table_name as [|c s IH]; cbn [str_replace String.length]; [reflexivity|].
  destruct (Ascii.eqb c "-"); cbn [append String.length]; f_equal; apply IH.
Qed.

(** ** The column expressions of [LayerJSON] and [LayerCSV] *)






Lemma nth_error_combine_seq {A : Type} (l : list A) (start i : nat) :
  nth_error (combine (seq start (List.length l)) l) i
  = option_map (fun x => (start + i, x)) (nth_error l i).
Proof.
  revert start i. induction l as [|a l IH]; intros start [|i]; cbn; try reflexivity.
  - now rewrite Nat.add_0_r.
  - rewrite IH. destruct (nth_error l i); cbn; [|reflexivity].
    do 2 f_equal. lia.
Qed.

Lemma first_appearance_same_header {A : Type} (f : A -> list string) (l : list A)
    (h : list string) :
  l <> [] -> (forall x, In x l -> f x = h) -> NoDup h ->
  first_appearance (flat_map f l) = h.
Proof.
  intros Hne Hall Hnd. destruct l as [|x l]; [congruence|]. cbn [flat_map].
  rewrite first_appearance_app, (Hall x) by now left.
  rewrite (first_appearance_fixed Hnd), filter_none; [apply app_nil_r|].
  intros y Hy. apply first_appearance_In, in_flat_map in Hy.
  destruct Hy as [z [Hz Hy]]. rewrite (Hall z) in Hy by now right.
  apply mem_In in Hy. now rewrite Hy.
Qed.

(** X9: the positions of [LayerCSV] are the positions of the header.  When
    every sampled CSV file has the same header, without repeated fields, and
    the overrides name columns of that header only, the columns of the
    schema that [generate_schema_from_csv] returns are the header fields in
    their order, and the term that [LayerCSV.__init__] writes at place [i]
    (from 0) selects position [i + 1] for the [i]-th header field. *)
Theorem X9_csv_dml_positions (strptime_ok : string -> bool) (s3 : S3 CSV)
    (s3_bucket_name prefix suffix : string) (limit : nat)
    (override : list (string * string)) (schema : dict string) (fields : list string) :
  generate_schema_from_csv strptime_ok s3 s3_bucket_name prefix suffix limit override
  = OK schema ->
  (forall obj, In obj (list_non_empty_objects s3 s3_bucket_name prefix suffix limit) ->
               header (body obj) = fields) ->
  NoDup fields ->
  (forall c, In c (map fst override) -> In c fields) ->
  keys schema = fields
  /\ forall i col,
       nth_error fields i = Some col ->
       nth_error (layer.csv_dml_terms schema) i
       = Some ("$" ++ str_of_nat (S i) ++ " AS " ++ layer.sanitize_column_name col)%string.
Proof.
  intros Hcall Hsame Hnd Hov.
  assert (Hkeys : keys schema = fields).
  { rewrite (csv_call_inv _ _ _ _ _ _ _ Hcall), keys_dict_update, inferred_keys_csv.
    rewrite generate_schema_from_csv_eq in Hcall.
    destruct (list_non_empty_objects s3 s3_bucket_name prefix suffix limit)
      as [|obj objs] eqn:E; [discriminate|].
    unfold csv_column_paths.
    rewrite (first_appearance_same_header (fun o => header (body o)) (l := obj :: objs)
               (h := fields)); try assumption; [|discriminate].
    now apply fold_append_unique_absorbed. }
  split; [exact Hkeys|].
  intros i col Hcol. unfold layer.csv_dml_terms, layer.enumerate1.
  rewrite nth_error_map, nth_error_combine_seq, Hkeys, Hcol. reflexivity.
Qed.

Lemma X9_witness :
  keys [("x", "VARIANT")] = ["x"]
  /\ nth_error (layer.csv_dml_terms [("x", "VARIANT")]) 0 = Some "$1 AS x".
Proof.
  destruct (@X9_csv_dml_positions strict_format csv_numbers_then_words "bkt" "data/" "csv"
              10 [] [("x", "VARIANT")] ["x"]) as [Hk Hn].
  - reflexivity.
  - intros obj [<-|[<-|[]]]; reflexivity.
  - repeat constructor. intros [].
  - intros c [].
  - split; [exact Hk | exact (Hn 0 "x" eq_refl)].
Defined.

(** ** The notification configuration *)

Lemma filter_filter_same {A : Type} (P : A -> bool) (l : list A) :
  filter P (filter P l) = filter P l.
Proof. apply filter_absorb. auto. Qed.

(** X10: [attach_sns_arn] replaces the trigger of the layer instead of
    adding to it.  When the configuration read from the bucket has its
    response metadata, the configuration put back has exactly one queue
    configuration with the trigger name of the layer, the last one, with the
    prefix of the layer as its filter and the given ARN; the queue
    configurations with another name are kept as they were, in their order,
    and so are the configurations of other kinds.  Without response metadata
    the deletion raises [KeyError] and nothing is put back. *)
Theorem X10_attach_replaces_trigger {M R : Type} (self : layer.Layer) (pipe_sns_arn : string)
    (notification_config : layer.NotificationConfiguration M R) :
  let existing := match layer.QueueConfigurations notification_config with
                  | Some configs => configs
                  | None => []
                  end in
  let other := fun config => negb (String.eqb (layer.Id config) (layer.s3_trigger_name self)) in
  let trigger := {| layer.Id := layer.s3_trigger_name self;
                    layer.FilterRules := [("prefix", layer.s3_prefix self)];
                    layer.Events := ["s3:ObjectCreated:*"];
                    layer.QueueArn := pipe_sns_arn |} in
  (layer.ResponseMetadata notification_config = None ->
   layer.attach_sns_arn self pipe_sns_arn notification_config
   = Raise (KeyError "ResponseMetadata"))
  /\ (layer.ResponseMetadata notification_config <> None ->
      exists configs,
        layer.attach_sns_arn self pipe_sns_arn notification_config
        = OK {| layer.ResponseMetadata := None;
                layer.QueueConfigurations := Some configs;
                layer.OtherConfigurations := layer.OtherConfigurations notification_config |}
        /\ filter (fun config => negb (other config)) configs = [trigger]
        /\ last configs trigger = trigger
        /\ filter other configs = filter other existing).
Proof.
  cbv zeta. unfold layer.attach_sns_arn. split.
  - intros ->. reflexivity.
  - destruct (layer.ResponseMetadata notification_config) as [meta|]; [|congruence].
    intros _. eexists. split; [reflexivity|]. split; [|split].
    + rewrite filter_app. cbn [filter layer.Id]. rewrite String.eqb_refl. cbn [negb].
      rewrite filter_none; [reflexivity|].
      intros config Hin. apply filter_In in Hin. destruct Hin as [_ H]. now rewrite H.
    + apply last_last.
    + rewrite filter_app. cbn [filter layer.Id]. rewrite String.eqb_refl. cbn [negb].
      now rewrite app_nil_r, filter_filter_same.
Qed.

Lemma X10_witness :
  layer.attach_sns_arn
    (layer.LayerJSON__init__ "my-events" [] "bkt" "data/" "integration" false (Some true))
    "arn:new" (@layer.Build_NotificationConfiguration nat nat None None 0)
  = Raise (KeyError "ResponseMetadata")
  /\ exists configs,
       layer.attach_sns_arn
         (layer.LayerJSON__init__ "my-events" [] "bkt" "data/" "integration" false (Some true))
         "arn:new" bucket_notifications
       = OK {| layer.ResponseMetadata := None;
               layer.QueueConfigurations := Some configs;
               layer.OtherConfigurations := 7 |}
       /\ List.length configs = 2.
Proof.
  split.
  - apply (proj1 (X10_attach_replaces_trigger
                    (layer.LayerJSON__init__ "my-events" [] "bkt" "data/" "integration"
                       false (Some true))
                    "arn:new" (@layer.Build_NotificationConfiguration nat nat None None 0))).
    reflexivity.
  - destruct (proj2 (X10_attach_replaces_trigger
                       (layer.LayerJSON__init__ "my-events" [] "bkt" "data/" "integration"
                          false (Some true))
                       "arn:new" bucket_notifications)) as [configs [Hcall _]].
    + discriminate.
    + exists configs. split; [exact Hcall|].
      cbv in Hcall. now injection Hcall as <-.
Defined.

(** X11: attaching again does not pile up triggers, and the last ARN wins:
    attaching with one ARN, reading the configuration back and attaching with
    a second ARN puts back the same configuration as attaching with the second
    ARN straight away; in particular attaching twice with the same ARN is the
    same as attaching once. *)
Theorem X11_attach_again {M R : Type} (self : layer.Layer) (first_arn second_arn : string)
    (notification_config put_back : layer.NotificationConfiguration M R) (metadata : M) :
  layer.attach_sns_arn self first_arn notification_config = OK put_back ->
  layer.attach_sns_arn self second_arn
    {| layer.ResponseMetadata := Some metadata;
       layer.QueueConfigurations := layer.QueueConfigurations put_back;
       layer.OtherConfigurations := layer.OtherConfigurations put_back |}
  = layer.attach_sns_arn self second_arn notification_config.
Proof.
  unfold layer.attach_sns_arn.
  destruct (layer.ResponseMetadata notification_config) as [meta|]; [|discriminate].
  intros [= <-]. cbn [layer.ResponseMetadata layer.QueueConfigurations
                      layer.OtherConfigurations].
  rewrite filter_app. cbn [filter layer.Id]. rewrite String.eqb_refl. cbn [negb].
  now rewrite app_nil_r, filter_filter_same.
Qed.

Lemma X11_witness :
  layer.attach_sns_arn
    (layer.LayerJSON__init__ "my-events" [] "bkt" "data/" "integration" false (Some true))
    "arn:new"
    {| layer.ResponseMetadata := Some 200;
       layer.QueueConfigurations :=
         Some [ {| layer.Id := "other_trigger"; layer.FilterRules := [];
                   layer.Events := ["s3:ObjectRemoved:*"]; layer.QueueArn := "arn:other" |};
                {| layer.Id := "my_events_snowpipe_trigger";
                   layer.FilterRules := [("prefix", "data/")];
                   layer.Events := ["s3:ObjectCreated:*"]; layer.QueueArn := "arn:first" |} ];
       layer.OtherConfigurations := 7 |}
  = layer.attach_sns_arn
      (layer.LayerJSON__init__ "my-events" [] "bkt" "data/" "integration" false (Some true))
      "arn:new" bucket_notifications.
Proof.
  apply (@X11_attach_again nat nat
           (layer.LayerJSON__init__ "my-events" [] "bkt" "data/" "integration" false
              (Some true))
           "arn:first" "arn:new" bucket_notifications
           {| layer.ResponseMetadata := None;
              layer.QueueConfigurations :=
                Some [ {| layer.Id := "other_trigger"; layer.FilterRules := [];
                          layer.Events := ["s3:ObjectRemoved:*"];
                          layer.QueueArn := "arn:other" |};
                       {| layer.Id := "my_events_snowpipe_trigger";
                          layer.FilterRules := [("prefix", "data/")];
                          layer.Events := ["s3:ObjectCreated:*"];
                          layer.QueueArn := "arn:first" |} ];
              layer.OtherConfigurations := 7 |} 200).
  reflexivity.
Defined.

(** ** [_parse_datetime] and [_get_schema_from_df] on any frame *)



Lemma schema_loop_keys (df : DataFrame) (cols : list Series) (acc schema : dict string) :
  schema_loop df cols acc = OK schema ->
  keys schema = fold_left append_unique (map name cols) (keys acc).
Proof.
  revert acc. induction cols as [|column cols IH]; intros acc; cbn [schema_loop map fold_left].
  - now intros [= <-].
  - destruct (dict_get PANDAS_TO_SNOWFLAKE (column_dtype df column)) as [token|];
      [|discriminate].
    intros H. rewrite (IH _ H). now rewrite keys_dict_set.
Qed.

Lemma schema_loop_all (df : DataFrame) (tok : Series -> string) (cols : list Series)
    (acc : dict string) :
  (forall column, In column cols ->
                  dict_get PANDAS_TO_SNOWFLAKE (column_dtype df column) = Some (tok column)) ->
  NoDup (map name cols) -> (forall column, In column cols -> ~ In (name column) (keys acc)) ->
  schema_loop df cols acc = OK (acc ++ map (fun column => (name column, tok column)) cols).
Proof.
  revert acc. induction cols as [|column cols IH]; intros acc Htok Hnd Hacc;
    cbn [schema_loop map].
  - now rewrite app_nil_r.
  - rewrite (Htok column) by now left. cbn [map] in Hnd.
    inversion Hnd as [|? ? Hnot Hnd']; subst.
    rewrite dict_set_absent by (apply Hacc; now left).
    rewrite IH.
    + now rewrite <- app_assoc.
    + intros c Hc. apply Htok. now right.
    + assumption.
    + intros c Hc. unfold keys. rewrite map_app, in_app_iff. cbn [map fst In].
      intros [H|[H|[]]].
      * apply (Hacc c); [now right | exact H].
      * apply Hnot. rewrite H. now apply in_map.
Qed.

(** X13: a frame without rows never fails: for a frame with no row and
    unique column labels [_get_schema_from_df] returns VARIANT for every
    column, in the order of the columns, whatever their dtypes, even one
    that the table does not list. *)
Theorem X13_rowless_frame (df : DataFrame) :
  len df = 0 -> well_formed df -> NoDup (map name (columns df)) ->
  _get_schema_from_df df = OK (map (fun column => (name column, "VARIANT")) (columns df)).
Proof.
  intros Hlen Hwf Hnd. unfold _get_schema_from_df.
  apply (schema_loop_all df (fun _ => "VARIANT") (columns df) []); [|assumption|].
  - intros column Hin. unfold column_dtype, isna_sum.
    unfold well_formed in Hwf. rewrite Forall_forall in Hwf. specialize (Hwf column Hin).
    rewrite Hlen in *. destruct (values column); [reflexivity | discriminate].
  - intros column _ [].
Qed.

Lemma X13_witness :
  _get_schema_from_df
    {| len := 0;
       columns := [ {| name := "id"; dtype := "UInt64"; values := [] |};
                    {| name := "when"; dtype := "datetime64[ns, UTC]"; values := [] |} ] |}
  = OK [("id", "VARIANT"); ("when", "VARIANT")].
Proof.
  apply (@X13_rowless_frame
           {| len := 0;
              columns := [ {| name := "id"; dtype := "UInt64"; values := [] |};
                           {| name := "when"; dtype := "datetime64[ns, UTC]";
                              values := [] |} ] |}).
  - reflexivity.
  - repeat constructor.
  - repeat constructor; simpl; intuition discriminate.
Defined.

(** X14: when [_get_schema_from_df] returns, the schema has the columns of
    the frame and nothing else: for a frame with unique column labels the
    keys of the schema are the labels, in the order of the columns. *)
Theorem X14_schema_columns (df : DataFrame) (schema : dict string) :
  _get_schema_from_df df = OK schema -> NoDup (map name (columns df)) ->
  keys schema = map name (columns df)
  /\ List.length schema = List.length (columns df).
Proof.
  intros H Hnd. unfold _get_schema_from_df in H.
  assert (Hk : keys schema = map name (columns df)).
  { rewrite (schema_loop_keys _ _ _ H), fold_append_unique. cbn [keys map app].
    rewrite first_appearance_fixed by assumption. apply filter_all. reflexivity. }
  split; [exact Hk|].
  unfold keys in Hk. rewrite <- (length_map fst schema), Hk. apply length_map.
Qed.

Lemma X14_witness :
  keys [("x", "NUMBER(38,0)"); ("s", "VARCHAR")] = ["x"; "s"]
  /\ List.length [("x", "NUMBER(38,0)"); ("s", "VARCHAR")] = 2.
Proof.
  apply (@X14_schema_columns
           {| len := 1;
              columns := [ {| name := "x"; dtype := "Int64"; values := [PyInt 1] |};
                           {| name := "s"; dtype := "string"; values := [PyStr "a"] |} ] |}).
  - reflexivity.
  - repeat constructor; simpl; intuition discriminate.
Defined.

(** ** The prefix and the table name of [datasource_new] *)

Lemma upto_last_app (a file : string) :
  contains "/" file = false -> upto_last "/" (a ++ String "/" file) = (a ++ "/")%string.
Proof.
  intros Hfile. induction a as [|c a IH].
  - cbn [append upto_last]. rewrite Hfile. reflexivity.
  - assert (Hc : contains "/" (a ++ String "/" file) = true).
    { rewrite contains_app. cbn [contains Ascii.eqb Bool.eqb orb]. apply orb_true_r. }
    cbn [append upto_last]. now rewrite Hc, IH.
Qed.

Lemma upto_last_none (p : string) : contains "/" p = false -> upto_last "/" p = EmptyString.
Proof.
  induction p as [|c p IH]; cbn [contains upto_last]; [reflexivity|].
  intros H. apply orb_false_iff in H. destruct H as [Hc Hp]. now rewrite Hp, Hc.
Qed.

Lemma rstrip_name (name : string) :
  name <> EmptyString -> contains "/" name = false ->
  rstrip "/" (name ++ "/") = name.
Proof.
  induction name as [|c name IH]; [congruence|]. intros _ H.
  cbn [contains] in H. apply orb_false_iff in H. destruct H as [Hc Hname].
  cbn [append rstrip]. destruct name as [|d name].
  - cbn [append rstrip Ascii.eqb Bool.eqb]. now rewrite Hc.
  - rewrite IH by (try discriminate; assumption). reflexivity.
Qed.

Lemma rstrip_app (parent s : string) :
  rstrip "/" s <> EmptyString -> rstrip "/" (parent ++ s) = (parent ++ rstrip "/" s)%string.
Proof.
  intros Hs. induction parent as [|c parent IH]; [reflexivity|].
  cbn [append rstrip]. rewrite IH.
  destruct (parent ++ rstrip "/" s)%string eqn:E; [|reflexivity].
  destruct parent; [simpl in E; congruence | discriminate].
Qed.

Lemma only_app (c : ascii) (a b : string) : only c (a ++ b) = only c a && only c b.
Proof.
  induction a as [|x a IH]; cbn [append only]; [reflexivity|]. now rewrite IH, andb_assoc.
Qed.

Lemma only_name (name : string) :
  name <> EmptyString -> contains "/" name = false -> only "/" name = false.
Proof.
  destruct name as [|c name]; [congruence|]. intros _ H. cbn [contains] in H.
  apply orb_false_iff in H. cbn [only]. now rewrite (proj1 H).
Qed.

Lemma dirname_of_key (parent name file : string) :
  name <> EmptyString -> contains "/" name = false -> contains "/" file = false ->
  dirname (parent ++ name ++ "/" ++ file) = (parent ++ name)%string.
Proof.
  intros Hne Hname Hfile. unfold dirname.
  change ("/" ++ file)%string with (String "/" file).
  rewrite <- string_app_assoc, upto_last_app by exact Hfile.
  rewrite !string_app_assoc, !only_app, (only_name Hne Hname), andb_false_l, andb_false_r.
  assert (Hhead : String.eqb (parent ++ name ++ "/") EmptyString = false).
  { apply String.eqb_neq. destruct parent, name; discriminate. }
  rewrite Hhead. cbn [negb andb].
  rewrite rstrip_app; rewrite (rstrip_name Hne Hname); [reflexivity | assumption].
Qed.

Lemma str_split_cons (sep : ascii) (s : string) :
  exists piece pieces, str_split sep s = piece :: pieces.
Proof.
  induction s as [|c s [piece [pieces IH]]]; cbn [str_split]; [eauto|].
  destruct (Ascii.eqb c sep); [eauto|]. rewrite IH. eauto.
Qed.

Lemma str_split_app (sep : ascii) (a b : string) :
  str_split sep (a ++ String sep b) = str_split sep a ++ str_split sep b.
Proof.
  induction a as [|c a IH]; cbn [append str_split].
  - now rewrite Ascii.eqb_refl.
  - rewrite IH. destruct (Ascii.eqb c sep); [reflexivity|].
    destruct (str_split_cons sep a) as [piece [pieces ->]]. reflexivity.
Qed.

Lemma str_split_whole (sep : ascii) (s : string) :
  contains sep s = false -> str_split sep s = [s].
Proof.
  induction s as [|c s IH]; cbn [contains str_split]; [reflexivity|].
  intros H. apply orb_false_iff in H. destruct H as [Hc Hs]. now rewrite Hc, IH.
Qed.

Lemma table_name_of_directory (parent name : string) :
  contains "/" name = false ->
  (parent = EmptyString \/ exists q, parent = (q ++ "/")%string) ->
  cli.table_name_of_prefix (parent ++ name ++ "/") = Some name.
Proof.
  intros Hname Hparent. unfold cli.table_name_of_prefix.
  assert (Hlast : str_split "/" (name ++ "/") = [name; EmptyString]).
  { rewrite (str_split_app "/" name EmptyString), (str_split_whole _ _ Hname). reflexivity. }
  destruct Hparent as [->|[q ->]].
  - cbn [append]. now rewrite Hlast.
  - rewrite string_app_assoc. cbn [append].
    rewrite (str_split_app "/" q (name ++ "/")), Hlast, rev_app_distr. reflexivity.
Qed.

(** X15: the prefix and the default table name come from the directory of
    the key.  For a key made of a directory path that ends with the
    directory [name] (non-empty, without slash), a slash and a file name
    without slash, [datasource_new] samples under the prefix that is the
    directory path followed by a slash, which is a prefix of the key, and,
    when no table name is given, takes [name] as the table name; a given
    table name is kept. *)
Theorem X15_prefix_and_table_name (s3_bucket_name parent name file : string) :
  s3_bucket_name <> EmptyString ->
  name <> EmptyString -> contains "/" name = false -> contains "/" file = false ->
  (parent = EmptyString \/ exists q, parent = (q ++ "/")%string) ->
  let key := (parent ++ name ++ "/" ++ file)%string in
  cli.prefix_of_key key = (parent ++ name ++ "/")%string
  /\ startswith key (cli.prefix_of_key key) = true
  /\ cli.prefix_and_table_name s3_bucket_name key None
     = cli.Proceed ((parent ++ name ++ "/")%string, name)
  /\ forall given,
       cli.prefix_and_table_name s3_bucket_name key (Some given)
       = cli.Proceed ((parent ++ name ++ "/")%string, given).
Proof.
  intros Hbucket Hne Hname Hfile Hparent. cbv zeta.
  assert (Hprefix : cli.prefix_of_key (parent ++ name ++ "/" ++ file)
                    = (parent ++ name ++ "/")%string).
  { unfold cli.prefix_of_key. rewrite dirname_of_key by assumption.
    apply string_app_assoc. }
  apply String.eqb_neq in Hbucket.
  split; [exact Hprefix|]. split; [|split].
  - rewrite Hprefix. apply startswith_spec. exists file.
    now rewrite !string_app_assoc.
  - unfold cli.prefix_and_table_name. rewrite Hbucket, Hprefix.
    rewrite table_name_of_directory by assumption.
    apply String.eqb_neq in Hne. now rewrite Hne.
  - intros given. unfold cli.prefix_and_table_name. now rewrite Hbucket, Hprefix.
Qed.

Lemma X15_witness :
  cli.prefix_of_key "landing/events/part-0.json" = "landing/events/"
  /\ cli.prefix_and_table_name "bkt" "landing/events/part-0.json" None
     = cli.Proceed ("landing/events/", "events").
Proof.
  destruct (@X15_prefix_and_table_name "bkt" "landing/" "events" "part-0.json")
    as [Hp [_ [Ht _]]].
  - discriminate.
  - discriminate.
  - reflexivity.
  - reflexivity.
  - right. now exists "landing".
  - split; [exact Hp | exact Ht].
Defined.

Lemma sampled_key_prefix {A : Type} (s3 : S3 A) (s3_bucket_name prefix suffix : string)
    (limit : nat) (obj : S3Object A) :
  In obj (list_non_empty_objects s3 s3_bucket_name prefix suffix limit) ->
  startswith (key obj) prefix = true.
Proof.
  rewrite list_non_empty_objects_eq, in_map_iff.
  intros [listed [<- Hin]]. apply filter_In in Hin. destruct Hin as [Hin _].
  apply firstn_In, filter_In in Hin. exact (proj2 Hin).
Qed.

(** X16: a key without a directory is not sampled.  For a key without a
    slash the prefix of [datasource_new] is a single slash: without a table
    name the command aborts, and with one it goes on with that prefix, under
    which the sampler never returns the object of the key itself.  Whatever
    the key, the second-to-last piece of the prefix exists: the index never
    fails. *)
Theorem X16_key_without_directory (s3_bucket_name object_key : string) :
  (forall table_name,
      cli.prefix_and_table_name s3_bucket_name object_key table_name <> cli.IndexError)
  /\ (contains "/" object_key = false ->
      cli.prefix_of_key object_key = "/"
      /\ cli.prefix_and_table_name s3_bucket_name object_key None = cli.Abort
      /\ (forall given,
             s3_bucket_name <> EmptyString ->
             cli.prefix_and_table_name s3_bucket_name object_key (Some given)
             = cli.Proceed ("/", given))
      /\ forall (A : Type) (s3 : S3 A) (suffix : string) (limit : nat) (obj : S3Object A),
           In obj (list_non_empty_objects s3 s3_bucket_name (cli.prefix_of_key object_key)
                     suffix limit) ->
           object_key <> key obj).
Proof.
  split.
  - intros table_name. unfold cli.prefix_and_table_name.
    destruct (String.eqb s3_bucket_name EmptyString); [discriminate|].
    destruct table_name as [given|]; [discriminate|].
    unfold cli.table_name_of_prefix, cli.prefix_of_key.
    rewrite (str_split_app "/" (dirname object_key) EmptyString), rev_app_distr.
    destruct (str_split_cons "/" (dirname object_key)) as [piece [pieces ->]].
    cbn [str_split rev app]. destruct (rev pieces ++ [piece]) eqn:E.
    + destruct (rev pieces); discriminate.
    + cbn [nth_error]. destruct (String.eqb s EmptyString); discriminate.
  - intros Hkey.
    assert (Hprefix : cli.prefix_of_key object_key = "/").
    { unfold cli.prefix_of_key, dirname. now rewrite (upto_last_none _ Hkey). }
    split; [exact Hprefix|]. split; [|split].
    + unfold cli.prefix_and_table_name. rewrite Hprefix.
      destruct (String.eqb s3_bucket_name EmptyString); reflexivity.
    + intros given Hbucket. unfold cli.prefix_and_table_name. rewrite Hprefix.
      apply String.eqb_neq in Hbucket. now rewrite Hbucket.
    + intros A s3 suffix limit obj Hin Heq. apply sampled_key_prefix in Hin.
      rewrite Hprefix, <- Heq in Hin. apply startswith_spec in Hin.
      destruct Hin as [rest ->]. cbn in Hkey. discriminate.
Qed.

Lemma X16_witness :
  cli.prefix_of_key "events.json" = "/"
  /\ cli.prefix_and_table_name "bkt" "events.json" None = cli.Abort.
Proof.
  destruct (proj2 (X16_key_without_directory "bkt" "events.json") eq_refl)
    as [Hp [Ha _]].
  split; [exact Hp | exact Ha].
Defined.

(** X17: within the first [limit] keys listed under the prefix the sampler
    misses nothing: every listed object among them whose key ends with the
    suffix (with or without a dot before it) and whose size is positive is
    returned, with the name of the bucket, its key and its content. *)
Theorem X17_sampler_complete {A : Type} (s3 : S3 A) (s3_bucket_name prefix suffix : string)
    (limit : nat) (listed : S3Entry A) (before : string) :
  In listed (firstn limit (filter (fun o => startswith (Key o) prefix) (s3 s3_bucket_name))) ->
  Key listed = (before ++ suffix)%string ->
  (0 < Size listed)%Z ->
  In {| bucket_name := s3_bucket_name; key := Key listed; body := Body listed |}
     (list_non_empty_objects s3 s3_bucket_name prefix suffix limit).
Proof.
  intros Hin Hkey Hsize. rewrite list_non_empty_objects_eq.
  apply in_map_iff. exists listed. split; [reflexivity|].
  apply filter_In. split; [exact Hin|].
  apply andb_true_iff. split; [|now apply Z.ltb_lt].
  apply endswith_spec. now exists before.
Qed.

Lemma X17_witness :
  In {| bucket_name := "bkt"; key := "data/a.csv";
        body := {| header := ["x"]; rows := [[PyInt 1]] |} |}
     (list_non_empty_objects csv_behind_the_limit "bkt" "data/" "csv" 2).
Proof.
  apply (@X17_sampler_complete CSV csv_behind_the_limit "bkt" "data/" "csv" 2
           (entry "data/a.csv" {| header := ["x"]; rows := [[PyInt 1]] |}) "data/a.").
  - right. left. reflexivity.
  - reflexivity.
  - reflexivity.
Defined.
